(** * misra-code-friend: the four Python command-line helpers

    A shallow embedding of

    - [server/python/fixed_response_code_snippet.py] (snippet extractor),
    - [server/python/numbering.py] (line-number adder),
    - [server/python/denumbering.py] (line-number stripper),
    - [server/python/excel_utils.py] (violation extractor),

    together with the properties their specification states.

    Conventions.  A Python [str] is a [string]; a character is an [ascii],
    read as the code point of the same number (U+0000 .. U+00FF), so the
    texts of this development are the ones over that range.  On it the
    classes of Python's [re] and [str] methods are exactly the ones
    written out below.  A [dict] with [str] keys is a [gmap string _].
    What a function prints on [sys.stderr] is returned next to its
    result.  A file is the text it decodes to, and the file system maps
    paths to such texts; pandas is a parameter of the violation
    extractor. *)

From Stdlib Require Import Ascii String NArith DecimalString DecimalN DecimalPos.
From stdpp Require Import base option list strings gmap.

(** ** Characters *)

Module Chr.
Local Open Scope char_scope.

Definition LF : ascii := "010".
Definition CR : ascii := "013".
Definition backtick : ascii := "`".
Definition backslash : ascii := "092".
Definition colon : ascii := ":".

(** [\d] *)
Definition isdigit (c : ascii) : bool :=
  match c with
  | "0" | "1" | "2" | "3" | "4" | "5" | "6" | "7" | "8" | "9" => true
  | _ => false
  end.

(** [[a-zA-Z]] *)
Definition isalpha (c : ascii) : bool :=
  let n := N_of_ascii c in
  ((97 <=? n) && (n <=? 122) || (65 <=? n) && (n <=? 90))%N.

(** [\s], and the characters [str.strip] and [str.rstrip] remove:
    TAB LF VT FF CR, FS GS RS US, SPACE, NEL (U+0085), NBSP (U+00A0). *)
Definition isspace (c : ascii) : bool :=
  match c with
  | "009" | "010" | "011" | "012" | "013"
  | "028" | "029" | "030" | "031" | " " | "133" | "160" => true
  | _ => false
  end.

(** The line boundaries of [str.splitlines]:
    LF VT FF CR, FS GS RS, NEL (U+0085). *)
Definition islinebreak (c : ascii) : bool :=
  match c with
  | "010" | "011" | "012" | "013" | "028" | "029" | "030" | "133" => true
  | _ => false
  end.

(** [.] without [re.DOTALL] *)
Definition notnewline (c : ascii) : bool := negb (Ascii.eqb c LF).

(** [.] with [re.DOTALL] *)
Definition anychar (_ : ascii) : bool := true.

Definition eq_char (a : ascii) (c : ascii) : bool := Ascii.eqb c a.

End Chr.

(** ** The [str] methods the scripts call *)

Module Str.

Fixpoint take (n : nat) (s : string) : string :=
  match n, s with
  | S n', String c s' => String c (take n' s')
  | _, _ => EmptyString
  end.

Fixpoint all (p : ascii -> bool) (s : string) : bool :=
  match s with
  | EmptyString => true
  | String c s' => p c && all p s'
  end.

(** No character of [s] satisfies [p]. *)
Definition free (p : ascii -> bool) (s : string) : bool :=
  all (fun c => negb (p c)) s.

Definition starts (p : ascii -> bool) (s : string) : bool :=
  match s with
  | EmptyString => false
  | String c _ => p c
  end.

Fixpoint ends (p : ascii -> bool) (s : string) : bool :=
  match s with
  | EmptyString => false
  | String c EmptyString => p c
  | String _ s' => ends p s'
  end.

Definition is_empty (s : string) : bool :=
  match s with EmptyString => true | _ => false end.

(** [s.lstrip()] *)
Fixpoint lstrip (s : string) : string :=
  match s with
  | EmptyString => EmptyString
  | String c s' => if Chr.isspace c then lstrip s' else s
  end.

(** [s.rstrip()]: a character is dropped when it is white space and
    nothing but white space follows it. *)
Fixpoint rstrip (s : string) : string :=
  match s with
  | EmptyString => EmptyString
  | String c s' =>
      let r := rstrip s' in
      if Chr.isspace c && is_empty r then EmptyString else String c r
  end.

(** [s.strip()] *)
Definition strip (s : string) : string := rstrip (lstrip s).

(** Put [c] in front of the first line of [ls]. *)
Definition push (c : ascii) (ls : list string) : list string :=
  match ls with
  | [] => [String c EmptyString]
  | l :: ls' => String c l :: ls'
  end.

(** [s.splitlines()]: the lines of [s] without their terminators; CR LF
    is one terminator; a terminator at the very end opens no new line. *)
Fixpoint splitlines (s : string) : list string :=
  match s with
  | EmptyString => []
  | String c s' =>
      if Chr.islinebreak c then
        match s' with
        | String c' _ =>
            if Ascii.eqb c Chr.CR && Ascii.eqb c' Chr.LF
            then splitlines s'
            else EmptyString :: splitlines s'
        | EmptyString => [EmptyString]
        end
      else push c (splitlines s')
  end.

(** [LF.join(ls)]: the lines with one LF between neighbours *)
Fixpoint join_lines (ls : list string) : string :=
  match ls with
  | [] => EmptyString
  | [l] => l
  | l :: ls' => l +:+ String Chr.LF (join_lines ls')
  end.

(** What a sequence of [write] calls leaves in a file. *)
Fixpoint concat (ls : list string) : string :=
  match ls with
  | [] => EmptyString
  | l :: ls' => l +:+ concat ls'
  end.

(** [s.startswith(p)] *)
Fixpoint startswith (p s : string) : bool :=
  match p, s with
  | EmptyString, _ => true
  | String a p', String c s' => Ascii.eqb c a && startswith p' s'
  | String _ _, EmptyString => false
  end.

(** [needle in s] *)
Fixpoint contains (needle s : string) : bool :=
  startswith needle s ||
  match s with
  | EmptyString => false
  | String _ s' => contains needle s'
  end.

End Str.

(** ** Python's [re]: the fragment the four scripts use

    A backtracking matcher with Python's priorities: a greedy repetition
    tries the longest run first, a lazy one the shortest, an alternative
    its left branch first.  Every repetition in the scripts' patterns is
    over a single character class, and no group lies inside another, so
    the groups close in the order of their numbers.  The continuation
    [k] stands for the rest of the pattern; [None] makes the matcher
    backtrack. *)

Module Re.

Inductive regex : Type :=
| Emp                                (* the empty pattern *)
| Chr (p : ascii -> bool)            (* one character of a class *)
| Seq (r1 r2 : regex)
| Alt (r1 r2 : regex)                (* r1|r2 *)
| Star (p : ascii -> bool)           (* p*   greedy *)
| LazyStar (p : ascii -> bool)       (* p*?  lazy *)
| Grp (r : regex)                    (* ( r ), a capturing group *)
| Bol                                (* ^ *)
| Eol.                               (* $ *)

(** a literal *)
Fixpoint Lit (s : string) : regex :=
  match s with
  | EmptyString => Emp
  | String c s' => Seq (Chr (Chr.eq_char c)) (Lit s')
  end.

(** r? greedy *)
Definition Opt (r : regex) : regex := Alt r Emp.

(** p+ greedy *)
Definition Plus (p : ascii -> bool) : regex := Seq (Chr p) (Star p).

Section Matcher.
Context {R : Type}.

(** position in the subject, rest of the subject, groups closed so far *)
Definition cont : Type := nat -> string -> list string -> option R.

Fixpoint star_greedy (p : ascii -> bool) (pos : nat) (s : string)
    (caps : list string) (k : cont) : option R :=
  match s with
  | String c s' =>
      if p c then
        match star_greedy p (S pos) s' caps k with
        | Some r => Some r
        | None => k pos s caps
        end
      else k pos s caps
  | EmptyString => k pos s caps
  end.

Fixpoint star_lazy (p : ascii -> bool) (pos : nat) (s : string)
    (caps : list string) (k : cont) : option R :=
  match k pos s caps with
  | Some r => Some r
  | None =>
      match s with
      | String c s' => if p c then star_lazy p (S pos) s' caps k else None
      | EmptyString => None
      end
  end.

(** [$] without [re.MULTILINE]: at the end, or before a final LF *)
Definition at_eol (s : string) : bool :=
  match s with
  | EmptyString => true
  | String c EmptyString => Ascii.eqb c Chr.LF
  | _ => false
  end.

Fixpoint exec (r : regex) (pos : nat) (s : string) (caps : list string)
    (k : cont) : option R :=
  match r with
  | Emp => k pos s caps
  | Chr p =>
      match s with
      | String c s' => if p c then k (S pos) s' caps else None
      | EmptyString => None
      end
  | Seq r1 r2 =>
      exec r1 pos s caps (fun pos' s' caps' => exec r2 pos' s' caps' k)
  | Alt r1 r2 =>
      match exec r1 pos s caps k with
      | Some x => Some x
      | None => exec r2 pos s caps k
      end
  | Star p => star_greedy p pos s caps k
  | LazyStar p => star_lazy p pos s caps k
  | Grp r' =>
      exec r' pos s caps
        (fun pos' s' caps' =>
           k pos' s' (caps' ++ [Str.take (String.length s - String.length s') s]))
  | Bol => match pos with 0 => k pos s caps | S _ => None end
  | Eol => if at_eol s then k pos s caps else None
  end.
End Matcher.

(** Does the pattern look at the position in the subject? *)
Fixpoint has_bol (r : regex) : bool :=
  match r with
  | Bol => true
  | Seq r1 r2 | Alt r1 r2 => has_bol r1 || has_bol r2
  | Grp r' => has_bol r'
  | Emp | Chr _ | Star _ | LazyStar _ | Eol => false
  end.

(** A continuation that fails on every end piece of the subject. *)
Definition dead {R : Type} (k : @cont R) (s : string) : Prop :=
  forall a b pos caps, s = a +:+ b -> k pos b caps = None.

(** One match attempt at position [pos], where [s] is the subject from
    [pos] on: the groups and the unconsumed rest. *)
Definition match_at (r : regex) (pos : nat) (s : string)
    : option (list string * string) :=
  exec r pos s [] (fun _ s' caps => Some (caps, s')).

(** [re.match(r, s)]: the groups of a match starting at position 0. *)
Definition re_match (r : regex) (s : string) : option (list string) :=
  fst <$> match_at r 0 s.

(** [m.group(i)], [i >= 1], of a match with groups [caps] *)
Definition group (i : nat) (caps : list string) : string :=
  nth (pred i) caps EmptyString.

(** The left-to-right scan of [re.findall]: the groups of each match.
    [skip] counts the characters still covered by the previous match.
    After a match of no character the scan moves on by one. *)
Fixpoint scan (r : regex) (pos : nat) (s : string) (skip : nat)
    : list (list string) :=
  match skip, s with
  | S n, String _ s' => scan r (S pos) s' n
  | S _, EmptyString => []
  | 0, String _ s' =>
      match match_at r pos s with
      | Some (caps, rest) =>
          caps :: scan r (S pos) s' (String.length s - String.length rest - 1)
      | None => scan r (S pos) s' 0
      end
  | 0, EmptyString =>
      match match_at r pos s with
      | Some (caps, _) => [caps]
      | None => []
      end
  end.

(** [re.findall(r, s)] for a pattern with one group *)
Definition findall (r : regex) (s : string) : list string :=
  group 1 <$> scan r 0 s 0.

(** The scan of [re.sub(r, repl, s)] for a replacement without group
    references: matched stretches become [repl], the rest is copied. *)
Fixpoint sub_scan (r : regex) (repl : string) (pos : nat) (s : string)
    (skip : nat) : string :=
  match skip, s with
  | S n, String _ s' => sub_scan r repl (S pos) s' n
  | S _, EmptyString => EmptyString
  | 0, String c s' =>
      match match_at r pos s with
      | Some (_, rest) =>
          match String.length s - String.length rest with
          | 0 => repl +:+ String c (sub_scan r repl (S pos) s' 0)
          | S n => repl +:+ sub_scan r repl (S pos) s' n
          end
      | None => String c (sub_scan r repl (S pos) s' 0)
      end
  | 0, EmptyString =>
      match match_at r pos s with
      | Some _ => repl
      | None => EmptyString
      end
  end.

Definition sub (r : regex) (repl s : string) : string :=
  sub_scan r repl 0 s 0.

End Re.

(** ** fixed_response_code_snippet.py *)

Module Snippets.
Import Re.

(** The pattern of [re.findall], with [re.DOTALL]; its tokens, set apart
    by blanks:  ```  (?: cpp | c\+\+ )?  \s*  \n  ( .*? )  ```  *)
Definition fence_re : regex :=
  Seq (Lit "```")
 (Seq (Opt (Alt (Lit "cpp") (Lit "c++")))
 (Seq (Star Chr.isspace)
 (Seq (Chr (Chr.eq_char Chr.LF))
 (Seq (Grp (LazyStar Chr.anychar))
      (Lit "```"))))).

(** The pattern of [re.match]:  ^  ( \d+ [a-zA-Z]* )  :  ( .* )  $  *)
Definition line_re : regex :=
  Seq Bol
 (Seq (Grp (Seq (Plus Chr.isdigit) (Star Chr.isalpha)))
 (Seq (Lit ":")
 (Seq (Grp (Star Chr.notnewline))
      Eol))).

(** One line printed on [sys.stderr]: the warning sign, [Skipping:] and
    the line. *)
Inductive diagnostic : Type :=
| Skipping (line : string).

(** The dictionary under construction and what went to [sys.stderr]. *)
Record state : Type := State {
  all_lines : gmap string string;
  stderr : list diagnostic
}.

Definition initial : state := State ∅ [].

(** [code_blocks = re.findall(..., response_text, re.DOTALL)] *)
Definition code_blocks (response_text : string) : list string :=
  findall fence_re response_text.

(** [lines = block.strip().splitlines()] *)
Definition block_lines (block : string) : list string :=
  Str.splitlines (Str.strip block).

(** The body of [for line in lines]. *)
Definition do_line (st : state) (line : string) : state :=
  match re_match line_re line with
  | Some m =>
      let lineno := Str.strip (group 1 m) in
      let code := Str.rstrip (group 2 m) in
      State (<[lineno := code]> (all_lines st)) (stderr st)
  | None =>
      State (all_lines st) (stderr st ++ [Skipping line])
  end.

(** The body of [for block in code_blocks]. *)
Definition do_block (st : state) (block : string) : state :=
  foldl do_line st (block_lines block).

Definition run (response_text : string) : state :=
  foldl do_block initial (code_blocks response_text).

(** The returned dictionary. *)
Definition extract_snippets_from_response (response_text : string)
    : gmap string string :=
  all_lines (run response_text).

(** What the call printed on [sys.stderr]. *)
Definition extract_stderr (response_text : string) : list diagnostic :=
  stderr (run response_text).

(** *** Vocabulary of the statements *)

(** The lines the loops look at, in order. *)
Definition examined_lines (response_text : string) : list string :=
  mjoin (block_lines <$> code_blocks response_text).

(** The entry a line gives, if it conforms. *)
Definition entry_of (line : string) : option (string * string) :=
  (fun m => (Str.strip (group 1 m), Str.rstrip (group 2 m)))
    <$> re_match line_re line.

(** A line-number label: digits, then letters. *)
Definition is_label (l : string) : Prop :=
  exists ds ls : string,
    l = ds +:+ ls /\ ds <> EmptyString /\
    Str.all Chr.isdigit ds = true /\ Str.all Chr.isalpha ls = true.

(** A fenced block as the response shows it: the opening fence with an
    optional language tag, a line feed, the body, the closing fence. *)
Definition fenced (tag body : string) : string :=
  "```" +:+ tag +:+ String Chr.LF (body +:+ "```").

Definition is_tag (tag : string) : Prop :=
  tag = EmptyString \/ tag = "cpp" \/ tag = "c++".

(** [s] closes no fence by itself: it has no three backticks in a row
    and does not end in a backtick. *)
Definition no_fence_inside (s : string) : bool :=
  negb (Str.contains "```" s) && negb (Str.ends (Chr.eq_char Chr.backtick) s).

(** A language tag the fence pattern does not accept: not empty, without
    white space and backtick, and neither [cpp] nor [c++]. *)
Definition foreign_tag (tag : string) : bool :=
  negb (Str.is_empty tag)
  && Str.free Chr.isspace tag
  && Str.free (Chr.eq_char Chr.backtick) tag
  && negb (String.eqb tag "cpp") && negb (String.eqb tag "c++").

(** What is left of [s] after the last line feed of its leading white
    space, if that white space has a line feed. *)
Fixpoint after_blank_lines (s : string) : option string :=
  match s with
  | EmptyString => None
  | String c s' =>
      if Chr.isspace c then
        match after_blank_lines s' with
        | Some r => Some r
        | None => if Ascii.eqb c Chr.LF then Some s' else None
        end
      else None
  end.

(** The group the fence pattern captures for a body without backticks:
    the body without its leading blank lines. *)
Definition captured (body : string) : string :=
  default body (after_blank_lines body).

(** The insertions of a list of entries, oldest first. *)
Definition insert_all (m : gmap string string) (es : list (string * string))
    : gmap string string :=
  foldl (fun m e => <[e.1 := e.2]> m) m es.

(** The entries of the conforming lines, in the order of the input. *)
Definition entries (response_text : string) : list (string * string) :=
  omap entry_of (examined_lines response_text).

(** Sample responses. *)
Definition two_lines : string :=
  Str.join_lines ["```cpp"; "1: int x = 1;"; "2: // done"; "```"].

Definition continuation_line : string :=
  Str.join_lines
    ["```cpp"; "12a: foo(); " +:+ String Chr.backslash EmptyString; "```"].

Definition two_blocks : string :=
  Str.join_lines
    ["first"; "```cpp"; "7: old();"; "```"; "then"; "```c++"; "7: new();"; "```"].

Definition indented_lines : string :=
  Str.join_lines ["```cpp"; "  1: a"; "  2: b"; "```"].

Definition shaped_outside : string :=
  Str.join_lines
    ["see `x`:"; "1: outside"; "```cpp"; "2: inside"; "```"; "3: after"].

(** A block with a remark between two numbered lines; a response
    without a fence; a block without a numbered line. *)
Definition remark_between : string :=
  Str.join_lines
    ["```cpp"; "1: int x = 1;"; "// a remark"; "2: return x;"; "```"].

Definition prose_only : string :=
  Str.join_lines ["no code here"; "1: not in a block"].

Definition unnumbered_block : string :=
  Str.join_lines ["```"; "int x;"; "```"].


End Snippets.

(** ** Text files *)

Module Files.

(** Reading in text mode: CR LF and a lone CR arrive as LF. *)
Fixpoint universal_newlines (s : string) : string :=
  match s with
  | EmptyString => EmptyString
  | String c s' =>
      if Ascii.eqb c Chr.CR then
        match s' with
        | String c' _ =>
            if Ascii.eqb c' Chr.LF then universal_newlines s'
            else String Chr.LF (universal_newlines s')
        | EmptyString => String Chr.LF EmptyString
        end
      else String c (universal_newlines s')
  end.

(** The lines of a decoded text, each with its LF; the last one may lack
    it. *)
Fixpoint split_keepends (s : string) : list string :=
  match s with
  | EmptyString => []
  | String c s' =>
      if Ascii.eqb c Chr.LF then String c EmptyString :: split_keepends s'
      else Str.push c (split_keepends s')
  end.

(** [for line in infile] *)
Definition lines_of (content : string) : list string :=
  split_keepends (universal_newlines content).

(** [enumerate(xs, start)] *)
Fixpoint enumerate {A : Type} (xs : list A) (start : N) : list (N * A) :=
  match xs with
  | [] => []
  | x :: xs' => (start, x) :: enumerate xs' (N.succ start)
  end.

(** [str(i)] for [i >= 0] *)
Definition str_of_int (i : N) : string :=
  NilEmpty.string_of_uint (N.to_uint i).

(** *** Vocabulary of the statements *)

(** Text without LF, then one LF. *)
Fixpoint full_line (l : string) : bool :=
  match l with
  | EmptyString => false
  | String c l' =>
      if Ascii.eqb c Chr.LF then Str.is_empty l' else full_line l'
  end.

(** Text without LF, not empty: a last line without terminator. *)
Definition part_line (l : string) : bool :=
  negb (Str.is_empty l) && Str.free (Chr.eq_char Chr.LF) l.

(** Full lines, then at most one line without terminator. *)
Fixpoint well_split (ls : list string) : bool :=
  match ls with
  | [] => true
  | l :: ls' =>
      full_line l && well_split ls'
      || part_line l && match ls' with [] => true | _ => false end
  end.

(** The file system: the text of each existing path.  The tools are
    taken to decode and encode a file alike. *)
Abbreviation fs := (gmap string string).

End Files.

(** ** numbering.py *)

Module Numbering.
Import Files.

(** [f"{i}: {line}"] *)
Definition number_line (il : N * string) : string :=
  str_of_int il.1 +:+ ": " +:+ il.2.

(** What the loop writes for the lines it is given. *)
Definition numbered (lines : list string) : string :=
  Str.concat (number_line <$> enumerate lines 1).

(** [add_line_numbers(input_file, output_file)]: [None] when opening the
    input raises.  The output is opened, so created or truncated, before
    the first line is read. *)
Definition add_line_numbers (disk : fs) (input_file output_file : string)
    : option fs :=
  _ ← disk !! input_file;
  let disk1 := <[output_file := EmptyString]> disk in
  content ← disk1 !! input_file;
  Some (<[output_file := numbered (lines_of content)]> disk1).

End Numbering.

(** ** denumbering.py *)

Module Denumbering.
Import Re Files.

(** The pattern of [re.sub]:  ^  \d+  [a-zA-Z]*  :  \s?  *)
Definition prefix_re : regex :=
  Seq Bol
 (Seq (Plus Chr.isdigit)
 (Seq (Star Chr.isalpha)
 (Seq (Lit ":")
      (Opt (Chr Chr.isspace))))).

(** [new_line = re.sub(pattern, '', line)] *)
Definition new_line (line : string) : string :=
  sub prefix_re EmptyString line.

Definition denumbered (lines : list string) : string :=
  Str.concat (new_line <$> lines).

(** [remove_line_numbers(input_file, output_file)] *)
Definition remove_line_numbers (disk : fs) (input_file output_file : string)
    : option fs :=
  _ ← disk !! input_file;
  let disk1 := <[output_file := EmptyString]> disk in
  content ← disk1 !! input_file;
  Some (<[output_file := denumbered (lines_of content)]> disk1).

(** The number of lines of a file's content. *)
Definition line_count (content : string) : nat :=
  length (lines_of content).

(** [s] without its first character, if that is white space. *)
Definition drop_space (s : string) : string :=
  match s with
  | String c s' => if Chr.isspace c then s' else s
  | EmptyString => EmptyString
  end.

(** A numbered file with an empty second line, as an editor that trims
    trailing blanks leaves it. *)
Definition trimmed_numbered : string :=
  Str.concat ((fun l => l +:+ String Chr.LF EmptyString) <$> ["1: a"; "2:"; "3: b"]).

End Denumbering.

(** ** excel_utils.py *)

Module Excel.
Import Re.

(** An exception, with the text [str(e)] gives. *)
Inductive exn : Type :=
| Exn (message : string).

Definition str_of_exn (e : exn) : string :=
  match e with Exn m => m end.

Definition KeyError (key : string) : exn := Exn ("'" +:+ key +:+ "'").

Definition ValueError (s : string) : exn :=
  Exn ("invalid literal for int() with base 10: '" +:+ s +:+ "'").

(** A computation that returns or raises. *)
Definition result (A : Type) : Type := exn + A.

Definition ret {A : Type} (a : A) : result A := inr a.
Definition raise {A : Type} (e : exn) : result A := inl e.

Definition bind {A B : Type} (m : result A) (f : A -> result B) : result B :=
  match m with
  | inl e => inl e
  | inr a => f a
  end.

Declare Scope result_scope.
Delimit Scope result_scope with result.
Notation "'let*' x := m 'in' k" := (bind m (fun x => k))
  (at level 10, x name, m at level 100, k at level 200) : result_scope.
Local Open Scope result_scope.

(** Run [f] over a list, stopping at the first exception. *)
Fixpoint traverse {A B : Type} (f : A -> result B) (xs : list A)
    : result (list B) :=
  match xs with
  | [] => ret []
  | x :: xs' =>
      let* y := f x in
      let* ys := traverse f xs' in
      ret (y :: ys)
  end.

(** A cell as pandas hands it over: text, or NaN for an empty cell.
    Numeric and date cells are outside this model. *)
Inductive cell : Type :=
| CStr (s : string)
| CNaN.

#[global] Instance cell_eq_dec : EqDecision cell.
Proof. solve_decision. Defined.

(** [str(text)] *)
Definition str_of_cell (c : cell) : string :=
  match c with
  | CStr s => s
  | CNaN => "nan"
  end.

(** A data frame: its column labels and its rows; a row lacking a cell
    of a labelled column reads NaN there. *)
Record dataframe : Type := DataFrame {
  columns : list string;
  rows : list (gmap string cell)
}.

(** [row[name]] for a label of the frame *)
Definition at_label (name : string) (row : gmap string cell) : cell :=
  default CNaN (row !! name).

(** [df[name]] *)
Definition column (df : dataframe) (name : string) : result (list cell) :=
  if decide (name ∈ columns df) then ret (at_label name <$> rows df)
  else raise (KeyError name).

(** The number of digits [int] converts at most:
    [sys.get_int_max_str_digits()], which is 4300 where the program does
    not set it, and this one does not. *)
Definition int_max_str_digits : N := 4300.

(** The [ValueError] of [int] for a numeral of too many digits. *)
Definition TooManyDigits (digits : N) : exn :=
  Exn ("Exceeds the limit (" +:+ Files.str_of_int int_max_str_digits
       +:+ " digits) for integer string conversion: value has "
       +:+ Files.str_of_int digits
       +:+ " digits; use sys.set_int_max_str_digits() to increase the limit").

(** [int(s)] for [s] made of decimal digits: leading zeros count as
    digits of the numeral. *)
Definition int (s : string) : result N :=
  if Str.is_empty s then raise (ValueError s)
  else match NilEmpty.uint_of_string s with
       | Some d =>
           if (int_max_str_digits <? N.of_nat (String.length s))%N
           then raise (TooManyDigits (N.of_nat (String.length s)))
           else ret (N.of_uint d)
       | None => raise (ValueError s)
       end.

(** The pattern of [re.match]:  \[Line  ( \d+ )  \]  \s*  ( .+ )  *)
Definition line_warning_re : regex :=
  Seq (Lit "[Line ")
 (Seq (Grp (Plus Chr.isdigit))
 (Seq (Lit "]")
 (Seq (Star Chr.isspace)
      (Grp (Plus Chr.notnewline))))).

Definition parse_line_warning (text : cell) : result (option N * cell) :=
  match re_match line_warning_re (str_of_cell text) with
  | Some m =>
      let* n := int (group 1 m) in
      ret (Some n, CStr (group 2 m))
  | None => ret (None, text)
  end.

Record violation : Type := Violation {
  File : cell;
  Path : cell;
  Line : option N;
  Warning : cell;
  Level : cell;
  Misra : cell
}.

(** [row[name]] inside the loop over the filtered rows *)
Definition row_get (df : dataframe) (row : gmap string cell) (name : string)
    : result cell :=
  if decide (name ∈ columns df) then ret (at_label name row)
  else raise (KeyError name).

(** The dictionary built for one row.  Beside the row come its two new
    cells: [stored_line] is what
    [int(row['Line']) if pd.notna(row['Line']) else None] gives for the
    cell of the column [Line], and [warning] the cell of [Warning]. *)
Definition record_of (df : dataframe)
    (r : gmap string cell * (result (option N) * cell)) : result violation :=
  let '(row, (stored_line, warning)) := r in
  let* file := row_get df row "File" in
  let* path := row_get df row "Path" in
  let* line := stored_line in
  let level :=
    if decide ("Level" ∈ columns df) then at_label "Level" row
    else CStr EmptyString in
  let* misra := row_get df row "Misra" in
  ret (Violation file path line warning level misra).

Section Extract.
(** [pd.read_excel(excel_path, engine="openpyxl", usecols="A:F")]:
    the frame of the first six columns, or the exception raised. *)
Variable read_excel : string -> result dataframe.

(** What pandas does when the two new columns are assigned on a frame
    without rows: go on, or raise. *)
Variable assign_without_rows : option exn.

(** The column [Line] as pandas keeps it.  The assignment of the two new
    columns builds it from the parsed numbers of all rows, which may
    raise; the loop reads a cell back through
    [int(row['Line']) if pd.notna(row['Line']) else None], which may
    raise too.  pandas picks the type of the column from all its values,
    so what is read back need not be the number that was parsed: out of
    a column of floats, which it is once a row has no number, a number
    of more than 53 bits comes back rounded. *)
Variable line_column : list (option N) -> result (list (result (option N))).

(** The body of the [try]. *)
Definition try_body (excel_path target_file : string)
    : result (list violation) :=
  let* df := read_excel excel_path in
  let* texts := column df "Line and Warning" in
  let* parsed := traverse parse_line_warning texts in
  let* _assigned :=
    match rows df, assign_without_rows with
    | [], Some e => raise e
    | _, _ => ret tt
    end in
  let* lines := line_column (fst <$> parsed) in
  let* files := column df "File" in
  let filtered_df :=
    filter (fun r => at_label "File" r.1 = CStr target_file)
           (zip (rows df) (zip lines (snd <$> parsed))) in
  match filtered_df with
  | [] => ret []
  | _ => traverse (record_of df) filtered_df
  end.

(** The returned list and what was printed on [sys.stderr]. *)
Definition extract_violations_for_file (excel_path target_file : string)
    : list violation * list string :=
  match try_body excel_path target_file with
  | inr violations => (violations, [])
  | inl e => ([], ["Error parsing Excel file: " +:+ str_of_exn e])
  end.
End Extract.

(** *** Vocabulary of the statements *)

(** The two new cells of a row, [Line] and [Warning], read off the
    result of [parse_line_warning]. *)
Definition parsed_cell (text : cell) : option N * cell :=
  match parse_line_warning text with
  | inr r => r
  | inl _ => (None, text)
  end.

(** The computation returns. *)
Definition returns {A : Type} (m : result A) : Prop :=
  exists a, m = inr a.

(** The numbers parsed from the rows of a sheet, as the column [Line]
    is built from them. *)
Definition parsed_lines (df : dataframe) : list (option N) :=
  (fun row => (parsed_cell (at_label "Line and Warning" row)).1) <$> rows df.

(** A column that hands every number back as it was parsed.  pandas
    does so for a sheet whose numbers are all below 2^53: a column of
    integers and a column of floats both hold them exactly. *)
Definition exact_column (lines : list (option N))
    : result (list (result (option N))) :=
  ret (ret <$> lines).

(** The dictionary the loop builds for a row of a frame that has the
    columns it reads, when the column [Line] hands the parsed number
    back. *)
Definition violation_of (df : dataframe) (row : gmap string cell) : violation :=
  Violation (at_label "File" row) (at_label "Path" row)
    (parsed_cell (at_label "Line and Warning" row)).1
    (parsed_cell (at_label "Line and Warning" row)).2
    (if decide ("Level" ∈ columns df) then at_label "Level" row
     else CStr EmptyString)
    (at_label "Misra" row).

(** A sheet with the five named columns and one finding. *)
Definition five_columns : list string :=
  ["File"; "Path"; "Line and Warning"; "Level"; "Misra"].

Definition one_row : gmap string cell :=
  {[ "File" := CStr "a.cpp";
     "Path" := CStr "src/a.cpp";
     "Line and Warning" := CStr "[Line 42] unused variable";
     "Level" := CStr "warning";
     "Misra" := CStr "2.2" ]}.

Definition one_finding : dataframe := DataFrame five_columns [one_row].

(** A reader that finds that sheet under every path. *)
Definition read_one_finding (_ : string) : result dataframe :=
  ret one_finding.

(** The same sheet without the column of the file names, and without
    the column of the paths. *)
Definition no_file_column : dataframe :=
  DataFrame ["Path"; "Line and Warning"; "Level"; "Misra"]
    [delete "File" one_row].

Definition read_no_file_column (_ : string) : result dataframe :=
  ret no_file_column.

Definition no_path_column : dataframe :=
  DataFrame ["File"; "Line and Warning"; "Level"; "Misra"]
    [delete "Path" one_row].

Definition read_no_path_column (_ : string) : result dataframe :=
  ret no_path_column.

(** [n] times the character [c] *)
Fixpoint replicate_char (n : nat) (c : ascii) : string :=
  match n with
  | O => EmptyString
  | S n' => String c (replicate_char n' c)
  end.

(** The sample sheet with a line number of 4301 digits. *)
Definition long_numeral : string := replicate_char 4301 "9"%char.

Definition long_numeral_row : gmap string cell :=
  <[ "Line and Warning" := CStr ("[Line " +:+ long_numeral +:+ "] unused variable") ]>
    one_row.

Definition long_numeral_sheet : dataframe :=
  DataFrame five_columns [long_numeral_row].

Definition read_long_numeral (_ : string) : result dataframe :=
  ret long_numeral_sheet.

(** A reader that finds no file. *)
Definition read_nothing (excel_path : string) : result dataframe :=
  raise (Exn ("[Errno 2] No such file or directory: '" +:+ excel_path +:+ "'")).

End Excel.

(** * Properties *)

#[local] Arguments String.append !_ _ / : simpl nomatch.

(** ** Strings *)

Section StrFacts.
Implicit Types (s t u : string) (p : ascii -> bool) (c : ascii).

Lemma app_empty_r s : s +:+ EmptyString = s.
Proof. induction s as [|c s IH]; cbn; [done|by rewrite IH]. Qed.

Lemma app_assoc_str s t u : (s +:+ t) +:+ u = s +:+ (t +:+ u).
Proof. induction s as [|c s IH]; cbn; [done|by rewrite IH]. Qed.

Lemma length_app_str s t :
  String.length (s +:+ t) = String.length s + String.length t.
Proof. induction s as [|c s IH]; cbn; [done|by rewrite IH]. Qed.

Lemma take_length_app s t : Str.take (String.length s) (s +:+ t) = s.
Proof. induction s as [|c s IH]; cbn; [by destruct t|by rewrite IH]. Qed.

Lemma take_full s : Str.take (String.length s) s = s.
Proof. induction s as [|c s IH]; cbn; [done|by rewrite IH]. Qed.

Lemma take_eq n whole s t :
  whole = s +:+ t -> n = String.length s -> Str.take n whole = s.
Proof. intros -> ->. apply take_length_app. Qed.

Lemma take_consumed s t :
  Str.take (String.length (s +:+ t) - String.length t) (s +:+ t) = s.
Proof.
  rewrite length_app_str.
  replace (String.length s + String.length t - String.length t)
    with (String.length s) by lia.
  apply take_length_app.
Qed.

Lemma all_app p s t : Str.all p (s +:+ t) = Str.all p s && Str.all p t.
Proof.
  induction s as [|c s IH]; cbn; [done|].
  by rewrite IH, andb_assoc.
Qed.

Lemma all_impl p q s :
  (forall c, p c = true -> q c = true) ->
  Str.all p s = true -> Str.all q s = true.
Proof.
  intros Hpq. induction s as [|c s IH]; cbn; [done|].
  intros [Hc Hs]%andb_prop. rewrite (Hpq _ Hc). cbn. auto.
Qed.

Lemma free_app p s t : Str.free p (s +:+ t) = Str.free p s && Str.free p t.
Proof. apply all_app. Qed.

Lemma free_cons p c s :
  Str.free p (String c s) = negb (p c) && Str.free p s.
Proof. reflexivity. Qed.

Lemma starts_app p s t :
  s <> EmptyString -> Str.starts p (s +:+ t) = Str.starts p s.
Proof. by destruct s. Qed.

Lemma ends_cons p c s :
  s <> EmptyString -> Str.ends p (String c s) = Str.ends p s.
Proof. by destruct s. Qed.

Lemma ends_app p s t :
  t <> EmptyString -> Str.ends p (s +:+ t) = Str.ends p t.
Proof.
  intros Ht. induction s as [|c s IH]; [done|].
  change (String c s +:+ t) with (String c (s +:+ t)).
  rewrite ends_cons; [done|]. destruct s; [done|discriminate].
Qed.

Lemma ends_nonempty p s : Str.ends p s = true -> s <> EmptyString.
Proof. by destruct s. Qed.

Lemma app_nonempty_l s t : s <> EmptyString -> s +:+ t <> EmptyString.
Proof. by destruct s. Qed.

Lemma app_nonempty_r s t : t <> EmptyString -> s +:+ t <> EmptyString.
Proof. destruct s; [done|discriminate]. Qed.

(** *** [lstrip], [rstrip], [strip] *)

Lemma lstrip_spaces s t :
  Str.all Chr.isspace s = true -> Str.lstrip (s +:+ t) = Str.lstrip t.
Proof.
  induction s as [|c s IH]; cbn; [done|].
  intros [-> Hs]%andb_prop. auto.
Qed.

Lemma lstrip_starts s :
  Str.starts Chr.isspace s = false -> Str.lstrip s = s.
Proof. destruct s as [|c s]; cbn; [done|]. by intros ->. Qed.

Lemma rstrip_spaces s : Str.all Chr.isspace s = true -> Str.rstrip s = EmptyString.
Proof.
  induction s as [|c s IH]; cbn; [done|].
  intros [-> Hs]%andb_prop. by rewrite IH.
Qed.

Lemma rstrip_ends s :
  Str.ends (fun c => negb (Chr.isspace c)) s = true -> Str.rstrip s = s.
Proof.
  induction s as [|c s IH]; [done|].
  destruct s as [|c' s].
  - cbn. intros ->%negb_true_iff. done.
  - intros H. rewrite ends_cons in H by done.
    specialize (IH H). cbn [Str.rstrip] in *. rewrite IH.
    by rewrite andb_false_r.
Qed.

Lemma rstrip_app_spaces s t :
  Str.ends (fun c => negb (Chr.isspace c)) s = true ->
  Str.all Chr.isspace t = true ->
  Str.rstrip (s +:+ t) = s.
Proof.
  intros Hs Ht. induction s as [|c s IH]; [done|].
  destruct s as [|c' s].
  - cbn in *. apply negb_true_iff in Hs. rewrite Hs.
    by rewrite (rstrip_spaces _ Ht).
  - rewrite ends_cons in Hs by done. specialize (IH Hs).
    change (String c (String c' s) +:+ t)
      with (String c (String c' s +:+ t)).
    cbn [Str.rstrip]. rewrite IH. by rewrite andb_false_r.
Qed.

Lemma strip_core s t u :
  Str.all Chr.isspace s = true ->
  Str.starts Chr.isspace t = false ->
  Str.ends (fun c => negb (Chr.isspace c)) t = true ->
  Str.all Chr.isspace u = true ->
  Str.strip (s +:+ t +:+ u) = t.
Proof.
  intros Hs Ht1 Ht2 Hu. unfold Str.strip.
  rewrite lstrip_spaces by done.
  rewrite lstrip_starts.
  - by apply rstrip_app_spaces.
  - rewrite starts_app; [done|]. by eapply ends_nonempty.
Qed.

(** Stripping a string and stripping it after dropping white space at
    its front give the same. *)
Lemma strip_drop_spaces s t :
  Str.all Chr.isspace s = true -> Str.strip (s +:+ t) = Str.strip t.
Proof. intros Hs. unfold Str.strip. by rewrite lstrip_spaces. Qed.

End StrFacts.

(** ** The matcher *)

Section ReFacts.
Context {R : Type}.
Implicit Types (s t xs : string) (p : ascii -> bool) (c : ascii).
Implicit Types (k : @Re.cont R) (caps : list string) (pos : nat).

(** A greedy repetition facing a character outside its class hands over
    at once. *)
Lemma star_greedy_stop p pos s caps k :
  Str.starts p s = false ->
  Re.star_greedy p pos s caps k = k pos s caps.
Proof. destruct s as [|c s]; cbn; [done|]. by intros ->. Qed.

(** If the repetition succeeds after a run of its class, it succeeds the
    same way before the run. *)
Lemma star_greedy_app p xs : forall pos s caps k r,
  Str.all p xs = true ->
  Re.star_greedy p (pos + String.length xs) s caps k = Some r ->
  Re.star_greedy p pos (xs +:+ s) caps k = Some r.
Proof.
  induction xs as [|c xs IH]; intros pos s caps k r Hall Hk; cbn in *.
  - by rewrite Nat.add_0_r in Hk.
  - apply andb_prop in Hall as [-> Hall].
    rewrite (IH (S pos) s caps k r); [done|done|].
    by replace (S pos + String.length xs) with (pos + S (String.length xs)) by lia.
Qed.

(** The longest run is tried first. *)
Lemma star_greedy_max p xs pos s caps k r :
  Str.all p xs = true ->
  Str.starts p s = false ->
  k (pos + String.length xs) s caps = Some r ->
  Re.star_greedy p pos (xs +:+ s) caps k = Some r.
Proof.
  intros Hall Hs Hk. apply star_greedy_app; [done|].
  by rewrite star_greedy_stop.
Qed.

(** A lazy repetition walks over a stretch on which the rest of the
    pattern fails everywhere. *)
Lemma star_lazy_skip p xs : forall pos s caps k,
  Str.all p xs = true ->
  (forall a b, xs = a +:+ b -> b <> EmptyString ->
     k (pos + String.length a) (b +:+ s) caps = None) ->
  Re.star_lazy p pos (xs +:+ s) caps k
  = Re.star_lazy p (pos + String.length xs) s caps k.
Proof.
  induction xs as [|c xs IH]; intros pos s caps k Hall Hk; cbn in *.
  - by rewrite Nat.add_0_r.
  - apply andb_prop in Hall as [Hc Hall].
    pose proof (Hk EmptyString (String c xs) eq_refl) as H0. cbn in H0.
    rewrite Nat.add_0_r in H0. rewrite H0 by done. rewrite Hc.
    rewrite IH; [|done|].
    + by replace (S pos + String.length xs) with (pos + S (String.length xs)) by lia.
    + intros a b -> Hb. specialize (Hk (String c a) b eq_refl Hb). cbn in Hk.
      by replace (S pos + String.length a) with (pos + S (String.length a)) by lia.
Qed.

Lemma star_lazy_here p pos s caps k r :
  k pos s caps = Some r -> Re.star_lazy p pos s caps k = Some r.
Proof. destruct s; cbn; by intros ->. Qed.

Lemma star_greedy_all p xs pos caps k r :
  Str.all p xs = true ->
  k (pos + String.length xs) EmptyString caps = Some r ->
  Re.star_greedy p pos xs caps k = Some r.
Proof.
  intros Hall Hk. rewrite <- (app_empty_r xs) at 1.
  by apply star_greedy_max.
Qed.

(** A literal consumes itself. *)
Lemma exec_Lit l : forall pos s caps k,
  Re.exec (Re.Lit l) pos (l +:+ s) caps k = k (pos + String.length l) s caps.
Proof.
  induction l as [|c l IH]; intros pos s caps k; cbn.
  - by rewrite Nat.add_0_r.
  - unfold Chr.eq_char. rewrite Ascii.eqb_refl, IH.
    by replace (S pos + String.length l) with (pos + S (String.length l)) by lia.
Qed.

Lemma exec_Lit_fail l : forall pos s caps k,
  Str.startswith l s = false -> Re.exec (Re.Lit l) pos s caps k = None.
Proof.
  induction l as [|c l IH]; intros pos s caps k; cbn; [done|].
  destruct s as [|c' s]; [done|]. unfold Chr.eq_char.
  destruct (Ascii.eqb c' c); cbn; [apply IH|done].
Qed.

End ReFacts.

(** Character classes that exclude one another. *)

Lemma alpha_not_digit c : Chr.isalpha c = true -> Chr.isdigit c = false.
Proof. destruct c as [[] [] [] [] [] [] [] []]; cbn; done. Qed.

Lemma digit_not_space c : Chr.isdigit c = true -> Chr.isspace c = false.
Proof. destruct c as [[] [] [] [] [] [] [] []]; cbn; done. Qed.

Lemma alpha_not_space c : Chr.isalpha c = true -> Chr.isspace c = false.
Proof. destruct c as [[] [] [] [] [] [] [] []]; cbn; done. Qed.

(** ** The snippet extractor *)

Section SnippetFacts.
Import Snippets.
Implicit Types (st : state) (line label rest : string).

Lemma starts_digit_after_label ls rest :
  Str.all Chr.isalpha ls = true ->
  Str.starts Chr.isdigit (ls +:+ String Chr.colon rest) = false.
Proof.
  destruct ls as [|l ls]; cbn; [done|].
  intros [Hl _]%andb_prop. by apply alpha_not_digit.
Qed.

(** The line pattern on a label, a colon and a rest without line feed:
    the two groups are the label and the whole rest. *)
Lemma match_at_line_re ds ls rest :
  ds <> EmptyString ->
  Str.all Chr.isdigit ds = true ->
  Str.all Chr.isalpha ls = true ->
  Str.all Chr.notnewline rest = true ->
  Re.match_at line_re 0 (ds +:+ ls +:+ String Chr.colon rest)
  = Some ([ds +:+ ls; rest], EmptyString).
Proof.
  intros Hne Hds Hls Hrest.
  destruct ds as [|d ds]; [done|]. cbn in Hds. apply andb_prop in Hds as [Hd Hds].
  unfold Re.match_at, line_re. cbn [Re.exec Re.Plus Re.Lit String.append].
  rewrite Hd.
  eapply star_greedy_max; [done|by apply starts_digit_after_label|].
  eapply star_greedy_max; [done|done|].
  cbn. eapply star_greedy_all; [done|].
  cbn. rewrite Nat.sub_0_r, take_full.
  rewrite (take_eq _ _ (String d (ds +:+ ls)) (String Chr.colon rest)); [done| |].
  - cbn. by rewrite app_assoc_str.
  - cbn. rewrite !length_app_str. cbn. lia.
Qed.

Lemma strip_label label : is_label label -> Str.strip label = label.
Proof.
  intros (ds & ls & -> & Hne & Hds & Hls).
  assert (Hall : Str.all (fun c => negb (Chr.isspace c)) (ds +:+ ls) = true).
  { rewrite all_app. apply andb_true_intro. split.
    - eapply all_impl; [|exact Hds]. intros c Hc. by rewrite digit_not_space.
    - eapply all_impl; [|exact Hls]. intros c Hc. by rewrite alpha_not_space. }
  assert (Hne' : ds +:+ ls <> EmptyString) by by apply app_nonempty_l.
  revert Hall Hne'. generalize (ds +:+ ls). clear. intros s Hall Hne.
  unfold Str.strip. rewrite lstrip_starts.
  - apply rstrip_ends. induction s as [|c s IH]; [done|].
    cbn in Hall. apply andb_prop in Hall as [Hc Hall].
    destruct s as [|c' s]; [done|]. rewrite ends_cons by done. by apply IH.
  - destruct s as [|c s]; [done|]. cbn in *.
    apply andb_prop in Hall as [Hc _]. by apply negb_true_iff.
Qed.

(** The entry of a conforming line: its label, and all that follows the
    colon up to the trailing white space. *)
Lemma entry_of_conforming label rest :
  is_label label ->
  Str.all Chr.notnewline rest = true ->
  entry_of (label +:+ String Chr.colon rest) = Some (label, Str.rstrip rest).
Proof.
  intros Hl Hrest. unfold entry_of, Re.re_match.
  pose proof (strip_label _ Hl) as Hstrip.
  destruct Hl as (ds & ls & -> & Hne & Hds & Hls).
  rewrite app_assoc_str, match_at_line_re by done.
  cbn. fold (Str.strip (ds +:+ ls)). by rewrite Hstrip.
Qed.

(** The loop body, read through [entry_of]. *)
Lemma do_line_entry st line :
  do_line st line =
  match entry_of line with
  | Some (lineno, code) => State (<[lineno := code]> (all_lines st)) (stderr st)
  | None => State (all_lines st) (stderr st ++ [Skipping line])
  end.
Proof.
  unfold do_line, entry_of. by destruct (Re.re_match line_re line).
Qed.

Lemma omap_cons_list {A B : Type} (f : A -> option B) x l :
  omap f (x :: l)
  = match f x with Some y => y :: omap f l | None => omap f l end.
Proof. reflexivity. Qed.

Lemma all_lines_foldl lines : forall st,
  all_lines (foldl do_line st lines)
  = insert_all (all_lines st) (omap entry_of lines).
Proof.
  induction lines as [|line lines IH]; intros st; [done|].
  cbn [foldl]. rewrite IH, do_line_entry, omap_cons_list.
  by destruct (entry_of line) as [[l c]|].
Qed.

Lemma stderr_foldl lines : forall st,
  stderr (foldl do_line st lines)
  = stderr st ++ (Skipping <$> filter (fun l => entry_of l = None) lines).
Proof.
  induction lines as [|line lines IH]; intros st.
  - cbn. by rewrite app_nil_r.
  - cbn [foldl]. rewrite IH, do_line_entry, filter_cons.
    destruct (entry_of line) as [[l c]|] eqn:He.
    + by rewrite decide_False.
    + rewrite decide_True by done. cbn [fmap list_fmap stderr].
      by rewrite <- app_assoc.
Qed.

(** The two nested loops are one loop over the examined lines. *)
Lemma foldl_do_block blocks : forall st,
  foldl do_block st blocks
  = foldl do_line st (mjoin (block_lines <$> blocks)).
Proof.
  induction blocks as [|b blocks IH]; intros st; cbn; [done|].
  by rewrite IH, foldl_app.
Qed.

Lemma run_examined response_text :
  run response_text = foldl do_line initial (examined_lines response_text).
Proof. apply foldl_do_block. Qed.

(** *** Insertion in order *)

Lemma insert_all_app m es1 es2 :
  insert_all m (es1 ++ es2) = insert_all (insert_all m es1) es2.
Proof. apply foldl_app. Qed.

Lemma insert_all_other es : forall m l,
  l ∉ es.*1 -> insert_all m es !! l = m !! l.
Proof.
  induction es as [|[l' c'] es IH]; intros m l Hl; cbn; [done|].
  apply not_elem_of_cons in Hl as [Hne Hl].
  rewrite IH by done. by rewrite lookup_insert_ne.
Qed.

Lemma insert_all_last m es1 l c es2 :
  l ∉ es2.*1 -> insert_all m (es1 ++ (l, c) :: es2) !! l = Some c.
Proof.
  intros Hl. rewrite insert_all_app. cbn.
  rewrite insert_all_other by done. apply lookup_insert_eq.
Qed.

Lemma insert_all_origin es : forall m l c,
  insert_all m es !! l = Some c -> m !! l = Some c \/ (l, c) ∈ es.
Proof.
  induction es as [|[l' c'] es IH]; intros m l c H; cbn in *; [by left|].
  apply IH in H as [H|H].
  - destruct (decide (l' = l)) as [->|Hne].
    + rewrite lookup_insert_eq in H. injection H as ->. right. left.
    + rewrite lookup_insert_ne in H by done. by left.
  - right. by right.
Qed.

End SnippetFacts.

(** ** Fences *)

Section FenceFacts.
Import Snippets.

Lemma match_at_fence_none pos s :
  Str.startswith "```" s = false -> Re.match_at fence_re pos s = None.
Proof.
  intros H. unfold Re.match_at, fence_re. cbn [Re.exec].
  by apply exec_Lit_fail.
Qed.

(** Without three backticks in a row there is no block. *)
Lemma scan_no_fence s : forall pos,
  Str.contains "```" s = false -> Re.scan fence_re pos s 0 = [].
Proof.
  induction s as [|c s IH]; intros pos H.
  - cbn [Re.scan]. by rewrite match_at_fence_none.
  - cbn [Str.contains] in H. apply orb_false_elim in H as [H1 H2].
    cbn [Re.scan]. rewrite match_at_fence_none by done. by apply IH.
Qed.

Lemma code_blocks_no_fence response_text :
  Str.contains "```" response_text = false -> code_blocks response_text = [].
Proof.
  intros H. unfold code_blocks, Re.findall. by rewrite scan_no_fence.
Qed.

(** A pattern without [^] matches the same wherever the subject starts. *)
Lemma star_greedy_pos {R : Type} p s : forall pos pos' caps (k k' : @Re.cont R),
  (forall q q' s' c', k q s' c' = k' q' s' c') ->
  Re.star_greedy p pos s caps k = Re.star_greedy p pos' s caps k'.
Proof.
  induction s as [|c s IH]; intros pos pos' caps k k' Hk; cbn; [done|].
  rewrite (IH (S pos) (S pos') caps k k' Hk), (Hk pos pos'). done.
Qed.

Lemma star_lazy_pos {R : Type} p s : forall pos pos' caps (k k' : @Re.cont R),
  (forall q q' s' c', k q s' c' = k' q' s' c') ->
  Re.star_lazy p pos s caps k = Re.star_lazy p pos' s caps k'.
Proof.
  induction s as [|c s IH]; intros pos pos' caps k k' Hk; cbn.
  - by rewrite (Hk pos pos').
  - by rewrite (IH (S pos) (S pos') caps k k' Hk), (Hk pos pos').
Qed.

Lemma exec_pos {R : Type} r : forall pos pos' s caps (k k' : @Re.cont R),
  Re.has_bol r = false ->
  (forall q q' s' c', k q s' c' = k' q' s' c') ->
  Re.exec r pos s caps k = Re.exec r pos' s caps k'.
Proof.
  induction r as [|p|r1 IH1 r2 IH2|r1 IH1 r2 IH2|p|p|r IH| |];
    intros pos pos' s caps k k' Hb Hk; cbn in *.
  - apply Hk.
  - destruct s as [|c s]; [done|]. destruct (p c); [apply Hk|done].
  - apply orb_false_elim in Hb as [Hb1 Hb2].
    apply IH1; [done|]. intros q q' s' c'. by apply IH2.
  - apply orb_false_elim in Hb as [Hb1 Hb2].
    by rewrite (IH1 pos pos' s caps k k'), (IH2 pos pos' s caps k k').
  - by apply star_greedy_pos.
  - by apply star_lazy_pos.
  - apply IH; [done|]. intros q q' s' c'. apply Hk.
  - done.
  - destruct (Re.at_eol s); [apply Hk|done].
Qed.

Lemma match_at_pos r pos pos' s :
  Re.has_bol r = false -> Re.match_at r pos s = Re.match_at r pos' s.
Proof. intros Hb. unfold Re.match_at. by apply exec_pos. Qed.

Lemma scan_pos r s : forall pos pos' skip,
  Re.has_bol r = false -> Re.scan r pos s skip = Re.scan r pos' s skip.
Proof.
  induction s as [|c s IH]; intros pos pos' skip Hb; cbn [Re.scan].
  - destruct skip; [|done]. by rewrite (match_at_pos r pos pos').
  - destruct skip as [|n]; [|by apply IH].
    rewrite (match_at_pos r pos pos') by done.
    destruct (Re.match_at r pos' (String c s)) as [[caps rest]|].
    + f_equal. by apply IH.
    + by apply IH.
Qed.

Lemma scan_match r pos c s caps rest :
  Re.match_at r pos (String c s) = Some (caps, rest) ->
  Re.scan r pos (String c s) 0
  = caps :: Re.scan r (S pos) s
              (String.length (String c s) - String.length rest - 1).
Proof. intros H. cbn [Re.scan]. by rewrite H. Qed.

(** The characters a match has consumed are passed over. *)
Lemma scan_skip r m : forall pos rest,
  Re.scan r pos (m +:+ rest) (String.length m)
  = Re.scan r (pos + String.length m) rest 0.
Proof.
  induction m as [|c m IH]; intros pos rest; cbn [String.append String.length].
  - by rewrite Nat.add_0_r.
  - cbn [Re.scan]. rewrite IH. f_equal. lia.
Qed.

Lemma contains_suffix needle a b :
  Str.contains needle (a +:+ b) = false -> Str.contains needle b = false.
Proof.
  induction a as [|c a IH]; [done|]. cbn [String.append Str.contains].
  intros [_ H]%orb_false_elim. by apply IH.
Qed.

Lemma contains_startswith needle s :
  Str.contains needle s = false -> Str.startswith needle s = false.
Proof. destruct s; cbn [Str.contains]; by intros [H _]%orb_false_elim. Qed.

Lemma no_fence_inside_suffix a b :
  no_fence_inside (a +:+ b) = true -> no_fence_inside b = true.
Proof.
  unfold no_fence_inside. intros [H1 H2]%andb_prop.
  apply negb_true_iff in H1, H2. apply contains_suffix in H1. rewrite H1.
  destruct b as [|c b]; [done|]. rewrite ends_app in H2 by done.
  by rewrite H2.
Qed.

(** Inside such a text no position shows three backticks, also when
    backticks follow the text. *)
Lemma startswith_fence_inside s t :
  no_fence_inside s = true ->
  s <> EmptyString ->
  Str.startswith "```" (s +:+ t) = false.
Proof.
  unfold no_fence_inside. intros [H1 H2]%andb_prop Hne.
  apply negb_true_iff in H1, H2. apply contains_startswith in H1.
  unfold Chr.eq_char, Chr.backtick in H2.
  destruct s as [|c1 [|c2 [|c3 s]]]; [done|..].
  - cbn in *. by rewrite H2.
  - cbn in *. rewrite H2. by rewrite andb_false_r.
  - exact H1.
Qed.

(** Four backticks in a row open no block at the first of them. *)
Lemma match_at_four_backticks pos s :
  Re.match_at fence_re pos ("````" +:+ s) = None.
Proof. reflexivity. Qed.

Lemma match_at_before_fence pos pre s :
  Str.contains "```" pre = false ->
  pre <> EmptyString ->
  Re.match_at fence_re pos (pre +:+ "```" +:+ s) = None.
Proof.
  intros H Hne. apply contains_startswith in H.
  destruct pre as [|c1 [|c2 [|c3 pre]]]; [done|..].
  - destruct (Ascii.eqb_spec c1 "`") as [->|Hc1].
    + apply match_at_four_backticks.
    + apply match_at_fence_none. cbn. apply Ascii.eqb_neq in Hc1. by rewrite Hc1.
  - destruct (Ascii.eqb_spec c1 "`") as [->|Hc1];
      [destruct (Ascii.eqb_spec c2 "`") as [->|Hc2]|].
    + apply match_at_four_backticks.
    + apply match_at_fence_none. cbn. apply Ascii.eqb_neq in Hc2. by rewrite Hc2.
    + apply match_at_fence_none. cbn. apply Ascii.eqb_neq in Hc1. by rewrite Hc1.
  - by apply match_at_fence_none.
Qed.

(** Text without three backticks in a row, in front of a fence, holds no
    block. *)
Lemma scan_before_fence pre : forall pos s,
  Str.contains "```" pre = false ->
  Re.scan fence_re pos (pre +:+ "```" +:+ s) 0
  = Re.scan fence_re (pos + String.length pre) ("```" +:+ s) 0.
Proof.
  induction pre as [|c pre IH]; intros pos s Hfree.
  - cbn [String.append String.length]. by rewrite Nat.add_0_r.
  - pose proof (match_at_before_fence pos (String c pre) s Hfree) as Hm.
    apply (contains_suffix _ (String c EmptyString)) in Hfree.
    specialize (IH (S pos) s Hfree).
    set (fence := "```" +:+ s) in *.
    cbn [String.append] in *. cbn [Re.scan].
    rewrite Hm by done.
    rewrite IH. cbn [String.length]. f_equal. lia.
Qed.

(** The tail of the fence pattern: the lazy group runs up to the first
    closing fence. *)
Lemma all_anychar s : Str.all Chr.anychar s = true.
Proof. induction s as [|c s IH]; cbn; done. Qed.

Lemma lazy_to_fence b pos post caps :
  no_fence_inside b = true ->
  Re.exec (Re.Seq (Re.Grp (Re.LazyStar Chr.anychar)) (Re.Lit "```"))
    pos (b +:+ "```" +:+ post) caps (fun _ s' caps' => Some (caps', s'))
  = Some (caps ++ [b], post).
Proof.
  intros Hfree. cbn [Re.exec].
  rewrite star_lazy_skip.
  - apply star_lazy_here. rewrite exec_Lit. by rewrite take_consumed.
  - apply all_anychar.
  - intros a b' -> Hb'. apply exec_Lit_fail.
    apply startswith_fence_inside; [|done]. by eapply no_fence_inside_suffix.
Qed.

Lemma space_LF c : Chr.isspace c = false -> Ascii.eqb c Chr.LF = false.
Proof. destruct c as [[] [] [] [] [] [] [] []]; cbn; done. Qed.

Lemma greedy_blank body : forall pos post,
  no_fence_inside body = true ->
  Re.star_greedy Chr.isspace pos (body +:+ "```" +:+ post) []
    (fun pos' s' caps' =>
       Re.exec (Re.Seq (Re.Chr (Chr.eq_char Chr.LF))
                 (Re.Seq (Re.Grp (Re.LazyStar Chr.anychar)) (Re.Lit "```")))
         pos' s' caps' (fun _ s'' caps'' => Some (caps'', s'')))
  = (fun g => ([g], post)) <$> after_blank_lines body.
Proof.
  induction body as [|c body IH]; intros pos post Hfree.
  - reflexivity.
  - apply (no_fence_inside_suffix (String c EmptyString)) in Hfree.
    specialize (IH (S pos) post Hfree).
    pose proof (lazy_to_fence body (S pos) post [] Hfree) as Hlazy.
    set (closing := "```" +:+ post) in *.
    cbn [String.append Re.star_greedy after_blank_lines].
    destruct (Chr.isspace c) eqn:Hsp.
    + rewrite IH.
      destruct (after_blank_lines body) as [g|]; [done|].
      cbn [fmap option_fmap option_map].
      change (Re.exec (Re.Seq ?r1 ?r2) ?p ?s ?cs ?k)
        with (Re.exec r1 p s cs (fun pos' s' caps' => Re.exec r2 pos' s' caps' k)).
      cbn [Re.exec]. unfold Chr.eq_char at 1.
      destruct (Ascii.eqb c Chr.LF); [|done].
      exact Hlazy.
    + change (Re.exec (Re.Seq ?r1 ?r2) ?p ?s ?cs ?k)
        with (Re.exec r1 p s cs (fun pos' s' caps' => Re.exec r2 pos' s' caps' k)).
      cbn [Re.exec]. unfold Chr.eq_char at 1.
      by rewrite space_LF.
Qed.

(** The optional language tag, when a line feed follows it. *)
Lemma exec_tag {R : Type} tag pos rest (k : @Re.cont R) r :
  is_tag tag ->
  (forall q, k q (String Chr.LF rest) [] = Some r) ->
  Re.exec (Re.Opt (Re.Alt (Re.Lit "cpp") (Re.Lit "c++")))
    pos (tag +:+ String Chr.LF rest) [] k = Some r.
Proof.
  intros [->|[->| ->]] Hk; cbn; by rewrite Hk.
Qed.

Lemma fenced_app tag body post :
  fenced tag body +:+ post
  = "```" +:+ tag +:+ String Chr.LF (body +:+ "```" +:+ post).
Proof.
  unfold fenced. rewrite !app_assoc_str. cbn [String.append].
  by rewrite !app_assoc_str.
Qed.

(** One match of the fence pattern on a block whose body closes no
    fence: the group is the body without its leading blank lines, and
    the match ends behind the closing fence. *)
Lemma match_at_fenced pos tag body post :
  is_tag tag ->
  no_fence_inside body = true ->
  Re.match_at fence_re pos (fenced tag body +:+ post)
  = Some ([captured body], post).
Proof.
  intros Htag Hfree. rewrite fenced_app.
  unfold Re.match_at, fence_re.
  change (Re.exec (Re.Seq ?r1 ?r2) ?p ?s ?cs ?k)
    with (Re.exec r1 p s cs (fun pos' s' caps' => Re.exec r2 pos' s' caps' k)).
  rewrite exec_Lit.
  change (Re.exec (Re.Seq ?r1 ?r2) ?p ?s ?cs ?k)
    with (Re.exec r1 p s cs (fun pos' s' caps' => Re.exec r2 pos' s' caps' k)).
  apply exec_tag; [done|]. intros q.
  pose proof (greedy_blank body (S q) post Hfree) as Hg.
  pose proof (lazy_to_fence body (S q) post [] Hfree) as Hlazy.
  set (closing := "```" +:+ post) in *.
  change (Re.exec (Re.Seq (Re.Star ?p) ?r2) ?q0 ?s ?cs ?k)
    with (Re.star_greedy p q0 s cs
            (fun pos' s' caps' => Re.exec r2 pos' s' caps' k)).
  cbn [Re.star_greedy]. cbn [Chr.isspace Chr.LF].
  rewrite Hg. unfold captured.
  destruct (after_blank_lines body) as [g|]; [done|].
  cbn [fmap option_fmap option_map default].
  change (Re.exec (Re.Seq ?r1 ?r2) ?p ?s ?cs ?k)
    with (Re.exec r1 p s cs (fun pos' s' caps' => Re.exec r2 pos' s' caps' k)).
  cbn [Re.exec]. unfold Chr.eq_char at 1. rewrite Ascii.eqb_refl.
  exact Hlazy.
Qed.

(** The blocks of a response that opens with text without three
    backticks in a row, followed by a fenced block: that block, then the blocks of what
    follows it. *)
Lemma code_blocks_fenced pre tag body post :
  Str.contains "```" pre = false ->
  is_tag tag ->
  no_fence_inside body = true ->
  code_blocks (pre +:+ fenced tag body +:+ post)
  = captured body :: code_blocks post.
Proof.
  intros Hpre Htag Hbody. unfold code_blocks, Re.findall.
  pose proof (match_at_fenced (0 + String.length pre) tag body post Htag Hbody)
    as Hm.
  rewrite fenced_app in Hm |- *. rewrite scan_before_fence by done.
  rewrite <- fenced_app in Hm |- *.
  set (m := "``" +:+ tag +:+ String Chr.LF (body +:+ "```")).
  assert (Hshape : fenced tag body +:+ post = String Chr.backtick (m +:+ post)).
  { unfold fenced, m. rewrite !app_assoc_str. cbn [String.append].
    by rewrite !app_assoc_str. }
  clearbody m. rewrite Hshape in *.
  rewrite (scan_match _ _ _ _ _ _ Hm).
  cbn [fmap list_fmap Re.group nth pred]. f_equal.
  replace (String.length (String Chr.backtick (m +:+ post)) - String.length post - 1)
    with (String.length m).
  2:{ cbn [String.length]. rewrite length_app_str. lia. }
  rewrite scan_skip. by rewrite (scan_pos fence_re post _ 0).
Qed.

Lemma after_blank_lines_spaces body g :
  after_blank_lines body = Some g ->
  exists ws, Str.all Chr.isspace ws = true /\ body = ws +:+ g.
Proof.
  revert g. induction body as [|c body IH]; intros g; cbn; [done|].
  destruct (Chr.isspace c) eqn:Hsp; [|done].
  destruct (after_blank_lines body) as [g'|].
  - intros [= <-]. destruct (IH g' eq_refl) as (ws & Hws & ->).
    exists (String c ws). cbn. by rewrite Hsp, Hws.
  - destruct (Ascii.eqb c Chr.LF); [|done]. intros [= <-].
    exists (String c EmptyString). cbn. by rewrite Hsp.
Qed.

Lemma block_lines_captured body :
  block_lines (captured body) = block_lines body.
Proof.
  unfold captured, block_lines.
  destruct (after_blank_lines body) as [g|] eqn:Hg; [|done].
  apply after_blank_lines_spaces in Hg as (ws & Hws & ->).
  cbn [default]. by rewrite strip_drop_spaces.
Qed.

End FenceFacts.

(** ** What the snippet extractor guarantees *)

Section SnippetTheorems.
Import Snippets.

(** No line of [splitlines] holds a line boundary. *)
Lemma splitlines_free s :
  Forall (fun l => Str.free Chr.islinebreak l = true) (Str.splitlines s).
Proof.
  induction s as [|c s IH]; [constructor|]. cbn [Str.splitlines].
  destruct (Chr.islinebreak c) eqn:Hc.
  - destruct s as [|c' s]; [by repeat constructor|].
    destruct (Ascii.eqb c Chr.CR && Ascii.eqb c' Chr.LF); [done|].
    by constructor.
  - destruct (Str.splitlines s) as [|l ls]; cbn [Str.push].
    + repeat constructor. by rewrite free_cons, Hc.
    + apply Forall_cons in IH as [Hl Hls]. constructor; [|done].
      by rewrite free_cons, Hc.
Qed.

Lemma examined_lines_free response_text :
  Forall (fun l => Str.free Chr.islinebreak l = true)
    (examined_lines response_text).
Proof.
  unfold examined_lines. apply Forall_join, Forall_fmap, Forall_forall.
  intros block _. apply splitlines_free.
Qed.

Lemma linebreak_free_notnewline s :
  Str.free Chr.islinebreak s = true -> Str.all Chr.notnewline s = true.
Proof.
  apply all_impl. intros c Hc.
  destruct c as [[] [] [] [] [] [] [] []]; cbn in *; done.
Qed.

(** The rest of an examined line holds no line feed. *)
Lemma examined_rest response_text label rest :
  label +:+ String Chr.colon rest ∈ examined_lines response_text ->
  Str.all Chr.notnewline rest = true.
Proof.
  intros Hin. pose proof (examined_lines_free response_text) as Hall.
  rewrite Forall_forall in Hall. specialize (Hall _ Hin).
  rewrite free_app in Hall. apply andb_prop in Hall as [_ Hall].
  rewrite free_cons in Hall. apply andb_prop in Hall as [_ Hall].
  by apply linebreak_free_notnewline.
Qed.

(** C1, as amended.  For an examined line made of a label, a colon and
    a rest, the loop stores under the label all that follows the colon,
    trailing white space removed; a blank behind the colon is not
    consumed.  The block with the lines [1: int x = 1;] and [2: // done]
    gives the values with their leading blank. *)
Theorem code_is_text_after_colon
    (response_text label rest : string) (st : state) :
  label +:+ String Chr.colon rest ∈ examined_lines response_text ->
  is_label label ->
  do_line st (label +:+ String Chr.colon rest)
  = State (<[label := Str.rstrip rest]> (all_lines st)) (stderr st)
  /\ extract_snippets_from_response two_lines
     = {[ "1" := " int x = 1;"; "2" := " // done" ]}.
Proof.
  intros Hin Hl. split; [|by vm_compute].
  rewrite do_line_entry, entry_of_conforming; [done|done|].
  by eapply examined_rest.
Qed.

Lemma code_is_text_after_colon_witness :
  "2" +:+ String Chr.colon " // done" ∈ examined_lines two_lines /\
  is_label "2" /\
  (do_line initial ("2" +:+ String Chr.colon " // done")
   = State (<["2" := Str.rstrip " // done"]> (all_lines initial))
       (stderr initial)
   /\ extract_snippets_from_response two_lines
      = {[ "1" := " int x = 1;"; "2" := " // done" ]}).
Proof.
  assert (Hin : "2" +:+ String Chr.colon " // done" ∈ examined_lines two_lines).
  { replace (examined_lines two_lines) with ["1: int x = 1;"; "2: // done"]
      by (vm_compute; reflexivity).
    right. left. }
  assert (Hl : is_label "2").
  { exists "2", EmptyString. repeat split; [discriminate]. }
  exact (conj Hin (conj Hl
           (code_is_text_after_colon two_lines "2" " // done" initial Hin Hl))).
Defined.

(** C1, as the specification states it, fails: the values keep the blank
    that follows the colon. *)
Lemma leading_space_is_kept :
  extract_snippets_from_response two_lines
  <> {[ "1" := "int x = 1;"; "2" := "// done" ]}.
Proof.
  intros H. apply (f_equal (fun m => m !! "1")) in H.
  vm_compute in H. discriminate.
Qed.

(** C5.  An examined conforming line whose code ends in a backslash is
    stored with all that follows the colon, verbatim: inner white space,
    backslashes and the final backslash with the blank before it. *)
Theorem backslash_is_kept (response_text label code : string) (st : state) :
  label +:+ String Chr.colon (code +:+ String Chr.backslash EmptyString)
    ∈ examined_lines response_text ->
  is_label label ->
  do_line st (label +:+ String Chr.colon (code +:+ String Chr.backslash EmptyString))
  = State (<[label := code +:+ String Chr.backslash EmptyString]> (all_lines st))
      (stderr st)
  /\ extract_snippets_from_response continuation_line !! "12a"
     = Some (" foo(); " +:+ String Chr.backslash EmptyString).
Proof.
  intros Hin Hl. split; [|by vm_compute].
  rewrite do_line_entry, entry_of_conforming; [|done|by eapply examined_rest].
  rewrite rstrip_ends; [done|]. by rewrite ends_app.
Qed.

Lemma backslash_is_kept_witness :
  "12a" +:+ String Chr.colon (" foo(); " +:+ String Chr.backslash EmptyString)
    ∈ examined_lines continuation_line /\
  is_label "12a" /\
  (do_line initial
     ("12a" +:+ String Chr.colon (" foo(); " +:+ String Chr.backslash EmptyString))
   = State (<["12a" := " foo(); " +:+ String Chr.backslash EmptyString]>
              (all_lines initial)) (stderr initial)
   /\ extract_snippets_from_response continuation_line !! "12a"
      = Some (" foo(); " +:+ String Chr.backslash EmptyString)).
Proof.
  assert (Hin : "12a" +:+ String Chr.colon
                  (" foo(); " +:+ String Chr.backslash EmptyString)
                ∈ examined_lines continuation_line).
  { replace (examined_lines continuation_line)
      with ["12a: foo(); " +:+ String Chr.backslash EmptyString]
      by (vm_compute; reflexivity).
    left. }
  assert (Hl : is_label "12a").
  { exists "12", "a". repeat split; [discriminate]. }
  exact (conj Hin (conj Hl
           (backslash_is_kept continuation_line "12a" " foo(); " initial Hin Hl))).
Defined.

(** C2.  When a label occurs on several conforming lines, in one block
    or in several, the dictionary holds the code of the occurrence met
    last. *)
Theorem last_write_wins (response_text : string)
    (before after : list (string * string)) (label code : string) :
  entries response_text = before ++ (label, code) :: after ->
  label ∉ after.*1 ->
  extract_snippets_from_response response_text !! label = Some code.
Proof.
  intros He Hlast. unfold extract_snippets_from_response.
  rewrite run_examined, all_lines_foldl.
  fold (entries response_text). rewrite He.
  by apply insert_all_last.
Qed.

Lemma last_write_wins_witness :
  entries two_blocks = [("7", " old();")] ++ ("7", " new();") :: [] /\
  ("7" ∉ (@nil (string * string)).*1) /\
  extract_snippets_from_response two_blocks !! "7" = Some " new();".
Proof.
  assert (He : entries two_blocks = [("7", " old();")] ++ ("7", " new();") :: [])
    by (vm_compute; reflexivity).
  assert (Hn : "7" ∉ (@nil (string * string)).*1) by apply not_elem_of_nil.
  exact (conj He (conj Hn (last_write_wins two_blocks _ _ "7" " new();" He Hn))).
Defined.

(** C4.  The extraction is a total function without an error result.
    What it prints on the error channel is one notice per examined line
    that does not conform, in order; every entry of the dictionary comes
    from a conforming examined line; a response without a block, so one
    without three backticks in a row, gives the empty dictionary and no
    notice; a response whose examined lines all fail to conform gives
    the empty dictionary.  For a response that is one fenced block amid
    text without fence marker, the notices are the lines of the body,
    stripped and split, that do not conform, and the dictionary holds
    the entries of those that do.  The block with a remark between two
    numbered lines gives the two entries and one notice, for the remark;
    a response without fence gives neither entry nor notice, although
    one of its lines is numbered; a block without numbered line gives
    the empty dictionary and a notice. *)
Theorem extraction_never_fails (response_text : string) :
  extract_stderr response_text
  = Skipping <$> filter (fun line => entry_of line = None)
                   (examined_lines response_text)
  /\ (forall label code,
        extract_snippets_from_response response_text !! label = Some code ->
        exists line, line ∈ examined_lines response_text
                     /\ entry_of line = Some (label, code))
  /\ (code_blocks response_text = [] -> run response_text = initial)
  /\ (Str.contains "```" response_text = false ->
      run response_text = initial)
  /\ (Forall (fun line => entry_of line = None) (examined_lines response_text) ->
      extract_snippets_from_response response_text = ∅)
  /\ (forall pre tag body post,
        response_text = pre +:+ fenced tag body +:+ post ->
        Str.contains "```" pre = false ->
        is_tag tag ->
        no_fence_inside body = true ->
        Str.contains "```" post = false ->
        extract_stderr response_text
        = Skipping <$> filter (fun line => entry_of line = None)
                         (Str.splitlines (Str.strip body))
        /\ extract_snippets_from_response response_text
           = insert_all ∅ (omap entry_of (Str.splitlines (Str.strip body))))
  /\ run remark_between
     = State {[ "1" := " int x = 1;"; "2" := " return x;" ]}
         [Skipping "// a remark"]
  /\ run prose_only = initial
  /\ run unnumbered_block = State ∅ [Skipping "int x;"].
Proof.
  assert (Hone : forall pre tag body post,
            response_text = pre +:+ fenced tag body +:+ post ->
            Str.contains "```" pre = false ->
            is_tag tag ->
            no_fence_inside body = true ->
            Str.contains "```" post = false ->
            examined_lines response_text = Str.splitlines (Str.strip body)).
  { intros pre tag body post -> Hpre Htag Hbody Hpost. unfold examined_lines.
    rewrite code_blocks_fenced, (code_blocks_no_fence post) by done.
    change (mjoin (block_lines <$> [captured body]))
      with (block_lines (captured body) ++ []).
    by rewrite app_nil_r, block_lines_captured. }
  unfold extract_stderr, extract_snippets_from_response.
  rewrite run_examined.
  split; [|split; [|split; [|split; [|split; [|split; [|split; [|split]]]]]]].
  8, 9: by vm_compute.
  7: { vm_compute. f_equal. }
  6: { intros pre tag body post Hresp Hpre Htag Hbody Hpost.
       rewrite (Hone pre tag body post) by done.
       by rewrite stderr_foldl, all_lines_foldl. }
  - by rewrite stderr_foldl.
  - intros label code H. rewrite all_lines_foldl in H.
    apply insert_all_origin in H as [H|H]; [done|].
    apply list_elem_of_omap in H as (line & Hin & He). eauto.
  - intros H. unfold examined_lines. by rewrite H.
  - intros H. unfold examined_lines. by rewrite code_blocks_no_fence.
  - intros H. clear Hone. rewrite all_lines_foldl.
    replace (omap entry_of (examined_lines response_text)) with
      ([] : list (string * string)); [done|].
    symmetry. induction H as [|line lines Hl _ IH]; [done|].
    by rewrite omap_cons_list, Hl.
Qed.




(** The sample with conforming lines before and behind the block: only
    the line inside is stored, and nothing is reported. *)
Example shaped_outside_result :
  run shaped_outside = State {[ "2" := " inside" ]} [].
Proof. by vm_compute. Qed.

(** *** The lines of a block *)

Lemma splitlines_line_LF l s :
  Str.free Chr.islinebreak l = true ->
  Str.splitlines (l +:+ String Chr.LF s) = l :: Str.splitlines s.
Proof.
  induction l as [|c l IH]; intros Hl.
  - cbn. by destruct s.
  - cbn in Hl. apply andb_prop in Hl as [Hc Hl]. apply negb_true_iff in Hc.
    cbn [String.append Str.splitlines]. rewrite Hc, IH by done. done.
Qed.

Lemma splitlines_one_line l :
  l <> EmptyString ->
  Str.free Chr.islinebreak l = true ->
  Str.splitlines l = [l].
Proof.
  induction l as [|c l IH]; intros Hne Hl; [done|].
  cbn in Hl. apply andb_prop in Hl as [Hc Hl]. apply negb_true_iff in Hc.
  cbn [Str.splitlines]. rewrite Hc.
  destruct l as [|c' l]; [done|]. by rewrite IH.
Qed.

Lemma splitlines_join ls last_line :
  Forall (fun l => Str.free Chr.islinebreak l = true) ls ->
  last ls = Some last_line ->
  last_line <> EmptyString ->
  Str.splitlines (Str.join_lines ls) = ls.
Proof.
  intros Hall Hlast Hne. induction Hall as [|l ls Hl Hls IH]; [done|].
  destruct ls as [|l' ls].
  - cbn in *. injection Hlast as ->. by apply splitlines_one_line.
  - cbn [Str.join_lines]. rewrite splitlines_line_LF by done.
    f_equal. apply IH. by rewrite last_cons_cons in Hlast.
Qed.

Lemma join_nonempty ls last_line :
  last ls = Some last_line ->
  last_line <> EmptyString ->
  Str.join_lines ls <> EmptyString.
Proof.
  intros Hlast Hne. destruct ls as [|l [|l' ls]]; [done| |].
  - cbn in *. by injection Hlast as ->.
  - cbn [Str.join_lines]. by apply app_nonempty_r.
Qed.

Lemma ends_join p ls last_line :
  last ls = Some last_line ->
  last_line <> EmptyString ->
  Str.ends p (Str.join_lines ls) = Str.ends p last_line.
Proof.
  intros Hlast Hne. induction ls as [|l ls IH]; [done|].
  destruct ls as [|l' ls].
  - cbn in *. by injection Hlast as ->.
  - rewrite last_cons_cons in Hlast.
    change (Str.join_lines (l :: l' :: ls))
      with (l +:+ String Chr.LF (Str.join_lines (l' :: ls))).
    rewrite ends_app by done.
    rewrite ends_cons by by eapply join_nonempty.
    by apply IH.
Qed.

(** C3, as amended.  The lines examined for a block are what is left
    after all white space is removed from both ends of the block, split
    at the line boundaries: white space before the first line, its
    indentation included, and white space behind the last line go; every
    line keeps its content otherwise. *)
Theorem block_lines_strip_then_split
    (indent trail : string) (ls : list string) (first_line last_line : string) :
  Str.all Chr.isspace indent = true ->
  Str.all Chr.isspace trail = true ->
  Forall (fun l => Str.free Chr.islinebreak l = true) ls ->
  head ls = Some first_line ->
  Str.starts (fun c => negb (Chr.isspace c)) first_line = true ->
  last ls = Some last_line ->
  Str.ends (fun c => negb (Chr.isspace c)) last_line = true ->
  block_lines (indent +:+ Str.join_lines ls +:+ trail) = ls.
Proof.
  intros Hin Htr Hall Hhead Hfirst Hlast Hend. unfold block_lines.
  pose proof (ends_nonempty _ _ Hend) as Hne.
  rewrite strip_core; [by eapply splitlines_join|done| |
                       by rewrite (ends_join _ _ _ Hlast Hne)|done].
  destruct ls as [|l ls]; [done|]. cbn in Hhead. injection Hhead as ->.
  destruct first_line as [|c s]; [done|]. cbn in Hfirst.
  apply negb_true_iff in Hfirst.
  destruct ls; cbn; done.
Qed.

Lemma block_lines_strip_then_split_witness :
  Str.all Chr.isspace "  " = true /\
  Str.all Chr.isspace (String Chr.LF EmptyString) = true /\
  Forall (fun l => Str.free Chr.islinebreak l = true) ["1: a"; "  2: b"] /\
  head ["1: a"; "  2: b"] = Some "1: a" /\
  Str.starts (fun c => negb (Chr.isspace c)) "1: a" = true /\
  last ["1: a"; "  2: b"] = Some "  2: b" /\
  Str.ends (fun c => negb (Chr.isspace c)) "  2: b" = true /\
  block_lines ("  " +:+ Str.join_lines ["1: a"; "  2: b"] +:+ String Chr.LF EmptyString)
  = ["1: a"; "  2: b"].
Proof.
  assert (H1 : Str.all Chr.isspace "  " = true) by reflexivity.
  assert (H2 : Str.all Chr.isspace (String Chr.LF EmptyString) = true)
    by reflexivity.
  assert (H3 : Forall (fun l => Str.free Chr.islinebreak l = true)
                 ["1: a"; "  2: b"])
    by (repeat constructor).
  assert (H4 : head ["1: a"; "  2: b"] = Some "1: a") by reflexivity.
  assert (H5 : Str.starts (fun c => negb (Chr.isspace c)) "1: a" = true)
    by reflexivity.
  assert (H6 : last ["1: a"; "  2: b"] = Some "  2: b") by reflexivity.
  assert (H7 : Str.ends (fun c => negb (Chr.isspace c)) "  2: b" = true)
    by reflexivity.
  exact (conj H1 (conj H2 (conj H3 (conj H4 (conj H5 (conj H6 (conj H7
           (block_lines_strip_then_split _ _ _ _ _ H1 H2 H3 H4 H5 H6 H7)))))))).
Defined.

(** C3, as the specification states it, fails: the indentation of the
    first line of the block is removed before the line is matched. *)
Lemma first_line_loses_indentation :
  examined_lines indented_lines <> ["  1: a"; "  2: b"].
Proof. intros H. vm_compute in H. discriminate. Qed.

Example indented_lines_examined :
  examined_lines indented_lines = ["1: a"; "  2: b"].
Proof. by vm_compute. Qed.

End SnippetTheorems.

(** ** Text files: lines and their concatenation *)

Section FileFacts.
Import Files.
Implicit Types (s t l : string) (ls : list string).

Lemma concat_split_keepends t : Str.concat (split_keepends t) = t.
Proof.
  induction t as [|c t IH]; [done|]. cbn [split_keepends].
  destruct (Ascii.eqb c Chr.LF).
  - cbn. by rewrite IH.
  - destruct (split_keepends t) as [|l ls]; cbn in *; by rewrite <- IH.
Qed.

Lemma free_concat p ls :
  Str.free p (Str.concat ls) = forallb (Str.free p) ls.
Proof.
  induction ls as [|l ls IH]; [done|].
  cbn [Str.concat forallb]. by rewrite free_app, IH.
Qed.

Lemma universal_newlines_no_CR s :
  Str.free (Chr.eq_char Chr.CR) (universal_newlines s) = true.
Proof.
  induction s as [|c s IH]; [done|]. cbn [universal_newlines].
  destruct (Ascii.eqb c Chr.CR) eqn:Hc.
  - destruct s as [|c' s]; [done|].
    destruct (Ascii.eqb c' Chr.LF); [done|].
    by rewrite free_cons, IH.
  - rewrite free_cons, IH. unfold Chr.eq_char. by rewrite Hc.
Qed.

Lemma universal_newlines_id t :
  Str.free (Chr.eq_char Chr.CR) t = true -> universal_newlines t = t.
Proof.
  induction t as [|c t IH]; [done|]. cbn.
  intros [Hc Ht]%andb_prop. apply negb_true_iff in Hc.
  unfold Chr.eq_char in Hc. rewrite Hc. by rewrite IH.
Qed.

Lemma well_split_split_keepends t : well_split (split_keepends t) = true.
Proof.
  induction t as [|c t IH]; [done|]. cbn [split_keepends].
  destruct (Ascii.eqb c Chr.LF) eqn:Hc.
  - cbn. by rewrite Hc, IH.
  - destruct (split_keepends t) as [|l ls]; cbn.
    + unfold part_line, Chr.eq_char. cbn. by rewrite Hc.
    + cbn in IH. rewrite Hc. unfold part_line in *. cbn.
      unfold Chr.eq_char at 1. rewrite Hc. cbn.
      destruct l as [|c' l]; [|done]. cbn in IH. done.
Qed.

Lemma split_keepends_full l t :
  full_line l = true -> split_keepends (l +:+ t) = l :: split_keepends t.
Proof.
  induction l as [|c l IH]; [done|]. cbn [full_line String.append split_keepends].
  destruct (Ascii.eqb c Chr.LF) eqn:Hc.
  - destruct l; [|done]. intros _. cbn. by apply Ascii.eqb_eq in Hc as ->.
  - intros H. by rewrite IH.
Qed.

Lemma split_keepends_part l :
  part_line l = true -> split_keepends l = [l].
Proof.
  unfold part_line. induction l as [|c l IH]; [done|].
  cbn. intros [Hc Hl]%andb_prop. apply negb_true_iff in Hc.
  unfold Chr.eq_char in Hc. rewrite Hc.
  destruct l as [|c' l]; [done|]. by rewrite IH.
Qed.

(** Reading back what was written line by line gives the lines. *)
Lemma split_keepends_concat ls :
  well_split ls = true -> split_keepends (Str.concat ls) = ls.
Proof.
  induction ls as [|l ls IH]; [done|]. cbn [well_split].
  intros [[Hl Hls]%andb_prop|[Hl Hls]%andb_prop]%orb_prop.
  - cbn. rewrite split_keepends_full by done. by rewrite IH.
  - destruct ls; [|done]. cbn. rewrite app_empty_r.
    by apply split_keepends_part.
Qed.

Lemma full_line_prefix pre l :
  Str.free (Chr.eq_char Chr.LF) pre = true ->
  full_line l = true -> full_line (pre +:+ l) = true.
Proof.
  induction pre as [|c pre IH]; [done|]. cbn.
  intros [Hc Hpre]%andb_prop Hl. apply negb_true_iff in Hc.
  unfold Chr.eq_char in Hc. rewrite Hc. by apply IH.
Qed.

Lemma part_line_prefix pre l :
  Str.free (Chr.eq_char Chr.LF) pre = true ->
  part_line l = true -> part_line (pre +:+ l) = true.
Proof.
  unfold part_line. intros Hpre [Hne Hl]%andb_prop.
  rewrite free_app, Hpre, Hl.
  destruct pre; cbn; [by rewrite Hne|done].
Qed.

(** *** Decimal numerals *)

Lemma string_of_uint_digits d :
  Str.all Chr.isdigit (NilEmpty.string_of_uint d) = true.
Proof. induction d; cbn; done. Qed.

Lemma str_of_int_digits i : Str.all Chr.isdigit (str_of_int i) = true.
Proof. apply string_of_uint_digits. Qed.

Lemma str_of_int_nonempty i : str_of_int i <> EmptyString.
Proof.
  unfold str_of_int. destruct i as [|p]; [done|].
  cbn. pose proof (Unsigned.to_uint_nonnil p) as H.
  by destruct (Pos.to_uint p).
Qed.

Lemma digit_not_LF c : Chr.isdigit c = true -> negb (Chr.eq_char Chr.LF c) = true.
Proof. destruct c as [[] [] [] [] [] [] [] []]; cbn; done. Qed.

Lemma digit_not_CR c : Chr.isdigit c = true -> negb (Chr.eq_char Chr.CR c) = true.
Proof. destruct c as [[] [] [] [] [] [] [] []]; cbn; done. Qed.

End FileFacts.

(** ** Adding and removing line numbers *)

Section NumberingFacts.
Import Files Numbering Denumbering.
Implicit Types (s t l : string) (ls : list string).

Lemma match_at_prefix_later pos s : Re.match_at prefix_re (S pos) s = None.
Proof. reflexivity. Qed.

(** Behind the first position nothing matches: the rest is copied. *)
Lemma sub_scan_later repl s : forall pos,
  Re.sub_scan prefix_re repl (S pos) s 0 = s.
Proof.
  induction s as [|c s IH]; intros pos; cbn [Re.sub_scan];
    rewrite match_at_prefix_later; [done|by rewrite IH].
Qed.

Lemma sub_scan_skip r repl m : forall pos rest,
  Re.sub_scan r repl pos (m +:+ rest) (String.length m)
  = Re.sub_scan r repl (pos + String.length m) rest 0.
Proof.
  induction m as [|c m IH]; intros pos rest; cbn [String.append String.length].
  - by rewrite Nat.add_0_r.
  - cbn [Re.sub_scan]. rewrite IH. f_equal. lia.
Qed.

Lemma sub_scan_match r repl pos c s caps rest n :
  Re.match_at r pos (String c s) = Some (caps, rest) ->
  String.length (String c s) - String.length rest = S n ->
  Re.sub_scan r repl pos (String c s) 0
  = repl +:+ Re.sub_scan r repl (S pos) s n.
Proof. intros Hm Hn. cbn [Re.sub_scan]. by rewrite Hm, Hn. Qed.

(** The prefix pattern on a numeral, a colon, a blank and a rest. *)
Lemma match_at_prefix ds l :
  ds <> EmptyString ->
  Str.all Chr.isdigit ds = true ->
  Re.match_at prefix_re 0 (ds +:+ ": " +:+ l) = Some ([], l).
Proof.
  intros Hne Hds. destruct ds as [|d ds]; [done|].
  cbn in Hds. apply andb_prop in Hds as [Hd Hds].
  unfold Re.match_at, prefix_re.
  cbn [Re.exec Re.Plus Re.Lit Re.Opt String.append]. rewrite Hd.
  eapply star_greedy_max; [done|done|]. reflexivity.
Qed.

Lemma new_line_numbered ds l :
  ds <> EmptyString ->
  Str.all Chr.isdigit ds = true ->
  new_line (ds +:+ ": " +:+ l) = l.
Proof.
  intros Hne Hds. unfold new_line, Re.sub.
  pose proof (match_at_prefix ds l Hne Hds) as Hm.
  destruct ds as [|d ds]; [done|].
  set (m := ds +:+ ": ").
  assert (Hshape : String d ds +:+ ": " +:+ l = String d (m +:+ l)).
  { unfold m. cbn [String.append]. by rewrite app_assoc_str. }
  clearbody m. rewrite Hshape in *.
  rewrite (sub_scan_match _ _ _ _ _ _ _ (String.length m) Hm).
  - cbn [String.append]. by rewrite sub_scan_skip, sub_scan_later.
  - cbn [String.length]. rewrite length_app_str. lia.
Qed.

Lemma new_line_number_line i l : new_line (number_line (i, l)) = l.
Proof.
  apply new_line_numbered; [apply str_of_int_nonempty|apply str_of_int_digits].
Qed.

Lemma denumbered_numbered ls : forall start,
  denumbered (number_line <$> enumerate ls start) = Str.concat ls.
Proof.
  unfold denumbered.
  induction ls as [|l ls IH]; intros start; [done|].
  cbn [enumerate fmap list_fmap Str.concat].
  rewrite new_line_number_line. f_equal. apply IH.
Qed.

Lemma number_line_free p i l :
  (forall c, Chr.isdigit c = true -> negb (p c) = true) ->
  negb (p ":"%char) = true -> negb (p " "%char) = true ->
  Str.free p l = true ->
  Str.free p (number_line (i, l)) = true.
Proof.
  intros Hd Hc Hs Hl. unfold number_line. cbn [fst snd].
  rewrite !free_app, Hl.
  replace (Str.free p ": ") with true
    by (symmetry; rewrite !free_cons, Hc, Hs; reflexivity).
  rewrite !andb_true_r.
  eapply all_impl; [|apply str_of_int_digits]. exact Hd.
Qed.

Lemma well_split_numbered ls : forall start,
  well_split ls = true ->
  well_split (number_line <$> enumerate ls start) = true.
Proof.
  induction ls as [|l ls IH]; intros start; [done|].
  cbn [enumerate fmap list_fmap well_split].
  assert (Hpre : Str.free (Chr.eq_char Chr.LF) (str_of_int start +:+ ": ") = true).
  { apply (number_line_free _ start EmptyString); [apply digit_not_LF|done..]. }
  intros [[Hl Hls]%andb_prop|[Hl Hls]%andb_prop]%orb_prop.
  - apply orb_true_intro. left. apply andb_true_intro. split; [|by apply IH].
    unfold number_line. cbn [fst snd]. rewrite <- app_assoc_str.
    by apply full_line_prefix.
  - destruct ls; [|done]. apply orb_true_intro. right.
    apply andb_true_intro. split; [|done].
    unfold number_line. cbn [fst snd]. rewrite <- app_assoc_str.
    by apply part_line_prefix.
Qed.

Lemma forallb_free_numbered p ls : forall start,
  (forall c, Chr.isdigit c = true -> negb (p c) = true) ->
  negb (p ":"%char) = true -> negb (p " "%char) = true ->
  forallb (Str.free p) ls = true ->
  forallb (Str.free p) (number_line <$> enumerate ls start) = true.
Proof.
  induction ls as [|l ls IH]; intros start Hd Hc Hs; [done|].
  cbn [enumerate fmap list_fmap forallb].
  intros [Hl Hls]%andb_prop.
  rewrite number_line_free by done. by rewrite IH.
Qed.

Lemma lines_of_no_CR F :
  forallb (Str.free (Chr.eq_char Chr.CR)) (lines_of F) = true.
Proof.
  unfold lines_of. rewrite <- free_concat, concat_split_keepends.
  apply universal_newlines_no_CR.
Qed.

(** Reading the numbered file gives the numbered lines. *)
Lemma lines_of_numbered F :
  lines_of (numbered (lines_of F)) = number_line <$> enumerate (lines_of F) 1.
Proof.
  unfold lines_of at 1, numbered.
  rewrite universal_newlines_id.
  - apply split_keepends_concat, well_split_numbered.
    apply well_split_split_keepends.
  - rewrite free_concat. apply forallb_free_numbered;
      [apply digit_not_CR|done|done|apply lines_of_no_CR].
Qed.

(** Stripping the numbered file gives back the text that was read. *)
Lemma denumbered_after_numbered F :
  denumbered (lines_of (numbered (lines_of F))) = universal_newlines F.
Proof.
  rewrite lines_of_numbered, denumbered_numbered.
  apply concat_split_keepends.
Qed.

Lemma lines_of_universal_newlines F :
  lines_of (universal_newlines F) = lines_of F.
Proof.
  unfold lines_of. by rewrite universal_newlines_id by apply universal_newlines_no_CR.
Qed.

Lemma renumbered_content F :
  numbered (lines_of (denumbered (lines_of (numbered (lines_of F)))))
  = numbered (lines_of F).
Proof. by rewrite denumbered_after_numbered, lines_of_universal_newlines. Qed.

Lemma add_line_numbers_ok (disk : fs) (a b F : string) :
  disk !! a = Some F -> a <> b ->
  add_line_numbers disk a b
  = Some (<[b := numbered (lines_of F)]> (<[b := EmptyString]> disk)).
Proof.
  intros Ha Hab. unfold add_line_numbers. rewrite Ha. cbn.
  rewrite lookup_insert_ne by done. by rewrite Ha.
Qed.

Lemma remove_line_numbers_ok (disk : fs) (a b F : string) :
  disk !! a = Some F -> a <> b ->
  remove_line_numbers disk a b
  = Some (<[b := denumbered (lines_of F)]> (<[b := EmptyString]> disk)).
Proof.
  intros Ha Hab. unfold remove_line_numbers. rewrite Ha. cbn.
  rewrite lookup_insert_ne by done. by rewrite Ha.
Qed.

(** C6.  Numbering a file, stripping the result and numbering again
    gives the content of the first numbering; each tool reads one path
    and writes another. *)
Theorem add_strip_add (disk : fs) (a b c d F : string) :
  disk !! a = Some F ->
  a <> b -> b <> c -> c <> d -> b <> d ->
  exists disk1 disk2 disk3 : fs,
    add_line_numbers disk a b = Some disk1 /\
    remove_line_numbers disk1 b c = Some disk2 /\
    add_line_numbers disk2 c d = Some disk3 /\
    disk1 !! b = Some (numbered (lines_of F)) /\
    disk3 !! d = Some (numbered (lines_of F)) /\
    disk3 !! d = disk3 !! b.
Proof.
  intros Ha Hab Hbc Hcd Hbd.
  eexists _, _, _. split; [by apply add_line_numbers_ok|].
  assert (Hb : (<[b := numbered (lines_of F)]> (<[b := EmptyString]> disk) : fs) !! b
               = Some (numbered (lines_of F))) by apply lookup_insert_eq.
  split; [by apply remove_line_numbers_ok|].
  split; [apply add_line_numbers_ok; [apply lookup_insert_eq|done]|].
  split; [done|].
  rewrite lookup_insert_eq, renumbered_content.
  split; [done|].
  rewrite !(lookup_insert_ne _ d b) by done.
  rewrite !(lookup_insert_ne _ c b) by done.
  by rewrite Hb.
Qed.

Lemma add_strip_add_witness :
  ({[ "in.txt" := "x" ]} : fs) !! "in.txt" = Some "x" /\
  "in.txt" <> "num.txt" /\ "num.txt" <> "plain.txt" /\
  "plain.txt" <> "again.txt" /\ "num.txt" <> "again.txt" /\
  exists disk1 disk2 disk3 : fs,
    add_line_numbers {[ "in.txt" := "x" ]} "in.txt" "num.txt" = Some disk1 /\
    remove_line_numbers disk1 "num.txt" "plain.txt" = Some disk2 /\
    add_line_numbers disk2 "plain.txt" "again.txt" = Some disk3 /\
    disk1 !! "num.txt" = Some (numbered (lines_of "x")) /\
    disk3 !! "again.txt" = Some (numbered (lines_of "x")) /\
    disk3 !! "again.txt" = disk3 !! "num.txt".
Proof.
  assert (H0 : ({[ "in.txt" := "x" ]} : fs) !! "in.txt" = Some "x")
    by reflexivity.
  assert (H1 : "in.txt" <> "num.txt") by discriminate.
  assert (H2 : "num.txt" <> "plain.txt") by discriminate.
  assert (H3 : "plain.txt" <> "again.txt") by discriminate.
  assert (H4 : "num.txt" <> "again.txt") by discriminate.
  exact (conj H0 (conj H1 (conj H2 (conj H3 (conj H4
           (add_strip_add _ _ _ _ _ _ H0 H1 H2 H3 H4)))))).
Defined.

(** C7 fails on the program.  A numbered line that ends right behind its
    colon loses its line feed to the optional white space of the
    pattern, so the next line is joined to it: three lines are read and
    two are written. *)
Theorem stripper_joins_lines :
  new_line ("2:" +:+ String Chr.LF EmptyString) = EmptyString /\
  (disk ← remove_line_numbers {[ "in.txt" := trimmed_numbered ]} "in.txt" "out.txt";
   content ← disk !! "out.txt";
   Some (content, line_count content))
  = Some (Str.concat ((fun l => l +:+ String Chr.LF EmptyString) <$> ["a"; "b"]), 2) /\
  line_count trimmed_numbered = 3.
Proof. by vm_compute. Qed.

End NumberingFacts.

(** ** The violation extractor *)

Section ExcelFacts.
Import Excel.
Local Open Scope result_scope.

(** [int] gives a numeral of at most 4300 digits its value. *)
Lemma int_str_of_int n :
  (N.of_nat (String.length (Files.str_of_int n)) <= int_max_str_digits)%N ->
  int (Files.str_of_int n) = inr n.
Proof.
  intros Hlen. unfold int. pose proof (str_of_int_nonempty n) as Hne.
  destruct (Files.str_of_int n) eqn:Hs; [done|]. cbn [Str.is_empty].
  rewrite <- Hs in *. unfold Files.str_of_int at 1.
  rewrite NilEmpty.usu.
  apply N.ltb_ge in Hlen. rewrite Hlen.
  unfold ret. f_equal. apply DecimalN.Unsigned.of_to.
Qed.

(** The cell pattern on the bracketed numeral, white space and a
    message: the groups are the numeral and the message up to its first
    line feed. *)
Lemma match_at_line_warning ds ws msg tail :
  ds <> EmptyString ->
  Str.all Chr.isdigit ds = true ->
  Str.all Chr.isspace ws = true ->
  Str.starts (fun c => negb (Chr.isspace c)) msg = true ->
  Str.all Chr.notnewline msg = true ->
  Str.starts Chr.notnewline tail = false ->
  Re.match_at line_warning_re 0 ("[Line " +:+ ds +:+ "]" +:+ ws +:+ msg +:+ tail)
  = Some ([ds; msg], tail).
Proof.
  intros Hne Hds Hws Hm1 Hm2 Htail.
  unfold Re.match_at, line_warning_re.
  change (Re.exec (Re.Seq ?r1 ?r2) ?p ?s ?cs ?k)
    with (Re.exec r1 p s cs (fun pos' s' caps' => Re.exec r2 pos' s' caps' k)).
  rewrite exec_Lit.
  destruct ds as [|d ds]; [done|]. cbn in Hds. apply andb_prop in Hds as [Hd Hds].
  destruct msg as [|m msg]; [done|]. cbn in Hm1, Hm2.
  apply andb_prop in Hm2 as [Hm Hmsg]. apply negb_true_iff in Hm1.
  set (after_ds := "]" +:+ ws +:+ String m msg +:+ tail).
  cbn [Re.exec Re.Plus String.append]. rewrite Hd.
  eapply star_greedy_max; [done|done|].
  rewrite (take_eq _ _ (String d ds) after_ds);
    [|done|cbn [String.length]; rewrite length_app_str; lia].
  unfold after_ds. cbn [Re.Lit Re.exec String.append].
  unfold Chr.eq_char at 1. rewrite Ascii.eqb_refl.
  eapply star_greedy_max; [done|by cbn|].
  cbn [String.append]. rewrite Hm.
  eapply star_greedy_max; [done|done|].
  rewrite (take_eq _ _ (String m msg) tail);
    [done|done|cbn [String.length]; rewrite length_app_str; lia].
Qed.

Lemma parse_line_warning_match n ws msg tail :
  (N.of_nat (String.length (Files.str_of_int n)) <= int_max_str_digits)%N ->
  Str.all Chr.isspace ws = true ->
  Str.starts (fun c => negb (Chr.isspace c)) msg = true ->
  Str.all Chr.notnewline msg = true ->
  Str.starts Chr.notnewline tail = false ->
  parse_line_warning
    (CStr ("[Line " +:+ Files.str_of_int n +:+ "]" +:+ ws +:+ msg +:+ tail))
  = inr (Some n, CStr msg).
Proof.
  intros Hlen Hws Hm1 Hm2 Htail. unfold parse_line_warning, Re.re_match.
  cbn [str_of_cell].
  rewrite match_at_line_warning;
    [|apply str_of_int_nonempty|apply str_of_int_digits|done..].
  cbn [fmap option_fmap option_map fst Re.group nth pred].
  by rewrite int_str_of_int.
Qed.

Lemma parse_line_warning_no_match text :
  Re.re_match line_warning_re (str_of_cell text) = None ->
  parse_line_warning text = inr (None, text).
Proof. intros H. unfold parse_line_warning. by rewrite H. Qed.

Lemma filter_zip_none {B : Type} target_file rows : forall parsed : list B,
  Forall (fun row => at_label "File" row <> CStr target_file) rows ->
  filter (fun r : gmap string cell * B => at_label "File" r.1 = CStr target_file)
    (zip rows parsed) = [].
Proof.
  induction rows as [|row rows IH]; intros parsed Hall; [done|].
  destruct parsed as [|x parsed]; [done|].
  apply Forall_cons in Hall as [Hrow Hall].
  cbn [zip zip_with]. rewrite filter_cons, decide_False by done. by apply IH.
Qed.

Lemma column_present df name :
  name ∈ columns df -> column df name = inr (at_label name <$> rows df).
Proof. intros H. unfold column. by rewrite decide_True. Qed.

Lemma row_get_present df row name :
  name ∈ columns df -> row_get df row name = inr (at_label name row).
Proof. intros H. unfold row_get. by rewrite decide_True. Qed.

Lemma column_absent df name :
  name ∉ columns df -> column df name = inl (KeyError name).
Proof. intros H. unfold column. by rewrite decide_False. Qed.

Lemma row_get_absent df row name :
  name ∉ columns df -> row_get df row name = inl (KeyError name).
Proof. intros H. unfold row_get. by rewrite decide_False. Qed.

(** *** A sheet whose cells all parse *)

Lemma returns_parsed_cell text :
  returns (parse_line_warning text) ->
  parse_line_warning text = inr (parsed_cell text).
Proof. intros [r Hr]. unfold parsed_cell. by rewrite Hr. Qed.

Lemma traverse_parse (rows : list (gmap string cell)) :
  Forall (fun row =>
            returns (parse_line_warning (at_label "Line and Warning" row))) rows ->
  traverse parse_line_warning (at_label "Line and Warning" <$> rows)
  = inr ((fun row => parsed_cell (at_label "Line and Warning" row)) <$> rows).
Proof.
  induction 1 as [|row rows Hrow _ IH]; [done|].
  cbn [traverse fmap list_fmap].
  by rewrite (returns_parsed_cell _ Hrow), IH.
Qed.

Lemma fst_parsed df :
  (fst <$> ((fun row => parsed_cell (at_label "Line and Warning" row))
              <$> rows df))
  = parsed_lines df.
Proof. unfold parsed_lines. by rewrite <- list_fmap_compose. Qed.

(** Rows beside the cells of the two new columns, when the column of
    numbers hands them back as parsed. *)
Lemma zip_exact (rows : list (gmap string cell)) :
  zip rows
    (zip (ret <$> ((fun row => (parsed_cell (at_label "Line and Warning" row)).1)
                     <$> rows))
         (snd <$> ((fun row => parsed_cell (at_label "Line and Warning" row))
                     <$> rows)))
  = (fun row =>
       (row, (ret (parsed_cell (at_label "Line and Warning" row)).1,
              (parsed_cell (at_label "Line and Warning" row)).2))) <$> rows.
Proof. induction rows as [|row rows IH]; [done|]. cbn. by rewrite <- IH. Qed.

Lemma filter_rows_pair {B : Type} target_file (g : gmap string cell -> B)
    (rows : list (gmap string cell)) :
  filter (fun r : gmap string cell * B => at_label "File" r.1 = CStr target_file)
    ((fun x => (x, g x)) <$> rows)
  = (fun x => (x, g x))
      <$> filter (fun row => at_label "File" row = CStr target_file) rows.
Proof.
  induction rows as [|x rows IH]; [done|].
  cbn [fmap list_fmap]. rewrite !filter_cons. cbn [fst].
  destruct (decide (at_label "File" x = CStr target_file));
    cbn [fmap list_fmap]; by rewrite IH.
Qed.

Lemma traverse_record_of df rows :
  "File" ∈ columns df -> "Path" ∈ columns df -> "Misra" ∈ columns df ->
  traverse (record_of df)
    ((fun row =>
        (row, (ret (parsed_cell (at_label "Line and Warning" row)).1,
               (parsed_cell (at_label "Line and Warning" row)).2))) <$> rows)
  = inr (violation_of df <$> rows).
Proof.
  intros HF HP HM. induction rows as [|row rows IH]; [done|].
  cbn [fmap list_fmap traverse]. rewrite IH. unfold record_of.
  rewrite !row_get_present by done. done.
Qed.

(** The body of the [try] up to the filter, on a sheet whose cells all
    parse and whose column of numbers is built. *)
Lemma try_body_filtered read_excel assign_without_rows line_column
    excel_path target_file df lines :
  read_excel excel_path = inr df ->
  "Line and Warning" ∈ columns df ->
  Forall (fun row =>
            returns (parse_line_warning (at_label "Line and Warning" row)))
    (rows df) ->
  rows df <> [] ->
  line_column (parsed_lines df) = inr lines ->
  try_body read_excel assign_without_rows line_column excel_path target_file
  = let* files := column df "File" in
    match filter (fun r => at_label "File" r.1 = CStr target_file)
            (zip (rows df)
               (zip lines
                  (snd <$> ((fun row =>
                               parsed_cell (at_label "Line and Warning" row))
                              <$> rows df)))) with
    | [] => ret []
    | r :: rs => traverse (record_of df) (r :: rs)
    end.
Proof.
  intros Hread HL Hparse Hrows Hlines. unfold try_body. rewrite Hread.
  cbn [bind]. rewrite column_present by done. cbn [bind].
  rewrite traverse_parse by done. cbn [bind].
  rewrite fst_parsed, Hlines.
  destruct (rows df) as [|row others] eqn:Hdf; [done|]. cbn [bind ret].
  rewrite <- Hdf. clear Hdf Hparse Hrows row others.
  destruct (column df "File") as [e|files]; [done|]. cbn [bind].
  by destruct (filter _ _).
Qed.

(** On a sheet with its columns, whose cells all parse and whose
    numbers come back as parsed, the body of the [try] returns the
    records of the rows of the target file. *)
Lemma try_body_exact read_excel assign_without_rows line_column
    excel_path target_file df :
  read_excel excel_path = inr df ->
  "File" ∈ columns df -> "Path" ∈ columns df ->
  "Line and Warning" ∈ columns df -> "Misra" ∈ columns df ->
  Forall (fun row =>
            returns (parse_line_warning (at_label "Line and Warning" row)))
    (rows df) ->
  line_column (parsed_lines df) = exact_column (parsed_lines df) ->
  rows df <> [] ->
  try_body read_excel assign_without_rows line_column excel_path target_file
  = inr (violation_of df
           <$> filter (fun row => at_label "File" row = CStr target_file)
                 (rows df)).
Proof.
  intros Hread HF HP HL HM Hparse Hexact Hrows.
  rewrite (try_body_filtered _ _ _ _ _ df (ret <$> parsed_lines df)) by done.
  rewrite column_present by done. cbn [bind].
  unfold parsed_lines. rewrite zip_exact.
  rewrite (filter_rows_pair target_file
             (fun row => (ret (parsed_cell (at_label "Line and Warning" row)).1,
                          (parsed_cell (at_label "Line and Warning" row)).2))).
  pose proof (traverse_record_of df
                (filter (fun row => at_label "File" row = CStr target_file)
                   (rows df)) HF HP HM) as Hall.
  destruct (filter _ (rows df)) as [|m ms]; [done|].
  cbn [fmap list_fmap] in *. by rewrite Hall.
Qed.

(** C8, as amended.  A cell of the shape bracketed numeral, white
    space, message splits into the number and the message, for a
    numeral of at most 4300 digits; a cell the pattern does not match
    gives no line and the cell itself as the warning.  On a sheet with
    its columns, whose cells all parse and whose column of numbers
    hands them back as parsed, a row of the target file with such a
    cell has a record with that line and that warning in the result,
    and a row of the target file with a cell that does not match has a
    record without line, with the cell as the warning.  The sheet with
    the row of [a.cpp] and the cell [[Line 42] unused variable] gives
    one record, with line 42 and that warning. *)
Theorem line_and_warning_are_split
    (n : N) (ws msg tail : string)
    (read_excel : string -> result dataframe) (assign_without_rows : option exn)
    (line_column : list (option N) -> result (list (result (option N))))
    (excel_path target_file : string) (df : dataframe)
    (row : gmap string cell) :
  (N.of_nat (String.length (Files.str_of_int n)) <= int_max_str_digits)%N ->
  Str.all Chr.isspace ws = true ->
  Str.starts (fun c => negb (Chr.isspace c)) msg = true ->
  Str.all Chr.notnewline msg = true ->
  Str.starts Chr.notnewline tail = false ->
  read_excel excel_path = inr df ->
  "File" ∈ columns df -> "Path" ∈ columns df ->
  "Line and Warning" ∈ columns df -> "Misra" ∈ columns df ->
  Forall (fun r => returns (parse_line_warning (at_label "Line and Warning" r)))
    (rows df) ->
  line_column (parsed_lines df) = exact_column (parsed_lines df) ->
  row ∈ rows df ->
  at_label "File" row = CStr target_file ->
  parse_line_warning
    (CStr ("[Line " +:+ Files.str_of_int n +:+ "]" +:+ ws +:+ msg +:+ tail))
  = inr (Some n, CStr msg)
  /\ (forall text,
        Re.re_match line_warning_re (str_of_cell text) = None ->
        parse_line_warning text = inr (None, text))
  /\ (at_label "Line and Warning" row
      = CStr ("[Line " +:+ Files.str_of_int n +:+ "]" +:+ ws +:+ msg +:+ tail) ->
      exists v,
        v ∈ (extract_violations_for_file read_excel assign_without_rows
               line_column excel_path target_file).1
        /\ File v = CStr target_file /\ Line v = Some n
        /\ Warning v = CStr msg)
  /\ (Re.re_match line_warning_re
        (str_of_cell (at_label "Line and Warning" row)) = None ->
      exists v,
        v ∈ (extract_violations_for_file read_excel assign_without_rows
               line_column excel_path target_file).1
        /\ File v = CStr target_file /\ Line v = None
        /\ Warning v = at_label "Line and Warning" row)
  /\ extract_violations_for_file read_one_finding None exact_column
       "book.xlsx" "a.cpp"
     = ([Violation (CStr "a.cpp") (CStr "src/a.cpp") (Some 42%N)
           (CStr "unused variable") (CStr "warning") (CStr "2.2")], []).
Proof.
  intros Hlen Hws Hm1 Hm2 Htail Hread HF HP HL HM Hparse Hexact Hin Hfile.
  assert (Hres : (extract_violations_for_file read_excel assign_without_rows
                    line_column excel_path target_file).1
                 = violation_of df
                     <$> filter (fun r => at_label "File" r = CStr target_file)
                           (rows df)).
  { unfold extract_violations_for_file.
    rewrite (try_body_exact _ _ _ _ _ df); try done.
    intros Hnil. rewrite Hnil in Hin. by apply elem_of_nil in Hin. }
  assert (Hv : violation_of df row
               ∈ violation_of df
                   <$> filter (fun r => at_label "File" r = CStr target_file)
                         (rows df)).
  { apply list_elem_of_fmap. exists row. split; [done|].
    by apply list_elem_of_filter. }
  split; [by apply parse_line_warning_match|].
  split; [apply parse_line_warning_no_match|].
  split; [|split].
  - intros Hcell. exists (violation_of df row). rewrite Hres.
    split; [done|]. unfold violation_of, parsed_cell. cbn [File Line Warning].
    rewrite Hcell, parse_line_warning_match by done. done.
  - intros Hcell. exists (violation_of df row). rewrite Hres.
    split; [done|]. unfold violation_of, parsed_cell. cbn [File Line Warning].
    rewrite parse_line_warning_no_match by done. done.
  - by vm_compute.
Qed.

Lemma line_and_warning_are_split_witness :
  (N.of_nat (String.length (Files.str_of_int 42)) <= int_max_str_digits)%N /\
  Str.all Chr.isspace " " = true /\
  Str.starts (fun c => negb (Chr.isspace c)) "unused variable" = true /\
  Str.all Chr.notnewline "unused variable" = true /\
  Str.starts Chr.notnewline EmptyString = false /\
  read_one_finding "book.xlsx" = inr one_finding /\
  "File" ∈ columns one_finding /\ "Path" ∈ columns one_finding /\
  "Line and Warning" ∈ columns one_finding /\ "Misra" ∈ columns one_finding /\
  Forall (fun r => returns (parse_line_warning (at_label "Line and Warning" r)))
    (rows one_finding) /\
  exact_column (parsed_lines one_finding)
  = exact_column (parsed_lines one_finding) /\
  one_row ∈ rows one_finding /\
  at_label "File" one_row = CStr "a.cpp" /\
  (parse_line_warning
     (CStr ("[Line " +:+ Files.str_of_int 42 +:+ "]" +:+ " "
            +:+ "unused variable" +:+ EmptyString))
   = inr (Some 42%N, CStr "unused variable")
   /\ (forall text,
         Re.re_match line_warning_re (str_of_cell text) = None ->
         parse_line_warning text = inr (None, text))
   /\ (at_label "Line and Warning" one_row
       = CStr ("[Line " +:+ Files.str_of_int 42 +:+ "]" +:+ " "
               +:+ "unused variable" +:+ EmptyString) ->
       exists v,
         v ∈ (extract_violations_for_file read_one_finding None
                exact_column "book.xlsx" "a.cpp").1
         /\ File v = CStr "a.cpp" /\ Line v = Some 42%N
         /\ Warning v = CStr "unused variable")
   /\ (Re.re_match line_warning_re
         (str_of_cell (at_label "Line and Warning" one_row)) = None ->
       exists v,
         v ∈ (extract_violations_for_file read_one_finding None
                exact_column "book.xlsx" "a.cpp").1
         /\ File v = CStr "a.cpp" /\ Line v = None
         /\ Warning v = at_label "Line and Warning" one_row)
   /\ extract_violations_for_file read_one_finding None exact_column
        "book.xlsx" "a.cpp"
      = ([Violation (CStr "a.cpp") (CStr "src/a.cpp") (Some 42%N)
            (CStr "unused variable") (CStr "warning") (CStr "2.2")], [])).
Proof.
  assert (H0 : (N.of_nat (String.length (Files.str_of_int 42))
                <= int_max_str_digits)%N) by (vm_compute; discriminate).
  assert (H1 : Str.all Chr.isspace " " = true) by reflexivity.
  assert (H2 : Str.starts (fun c => negb (Chr.isspace c)) "unused variable"
               = true) by reflexivity.
  assert (H3 : Str.all Chr.notnewline "unused variable" = true) by reflexivity.
  assert (H4 : Str.starts Chr.notnewline EmptyString = false) by reflexivity.
  assert (H5 : read_one_finding "book.xlsx" = inr one_finding) by reflexivity.
  assert (H6 : "File" ∈ columns one_finding) by (repeat constructor).
  assert (H7 : "Path" ∈ columns one_finding) by (repeat constructor).
  assert (H8 : "Line and Warning" ∈ columns one_finding) by (repeat constructor).
  assert (H9 : "Misra" ∈ columns one_finding) by (repeat constructor).
  assert (H10 : Forall (fun r => returns (parse_line_warning
                                            (at_label "Line and Warning" r)))
                  (rows one_finding)).
  { repeat constructor.
    exists (Some 42%N, CStr "unused variable"). vm_compute. reflexivity. }
  assert (H11 : exact_column (parsed_lines one_finding)
                = exact_column (parsed_lines one_finding)) by reflexivity.
  assert (H12 : one_row ∈ rows one_finding) by (repeat constructor).
  assert (H13 : at_label "File" one_row = CStr "a.cpp")
    by (vm_compute; reflexivity).
  exact (conj H0 (conj H1 (conj H2 (conj H3 (conj H4 (conj H5 (conj H6 (conj H7
           (conj H8 (conj H9 (conj H10 (conj H11 (conj H12 (conj H13
              (line_and_warning_are_split 42 " " "unused variable" EmptyString
                 read_one_finding None exact_column "book.xlsx" "a.cpp"
                 one_finding one_row
                 H0 H1 H2 H3 H4 H5 H6 H7 H8 H9 H10 H11 H12 H13))))))))))))))).
Defined.

(** C8, as the specification states it, fails: a cell whose numeral has
    4301 digits matches the pattern, but [int] raises on it, so the row
    gives no record; the call returns the empty list and a notice. *)
Lemma long_numeral_gives_no_record :
  Re.re_match line_warning_re
    (str_of_cell (at_label "Line and Warning" long_numeral_row))
  = Some [long_numeral; "unused variable"]
  /\ parse_line_warning (at_label "Line and Warning" long_numeral_row)
     = inl (TooManyDigits 4301)
  /\ extract_violations_for_file read_long_numeral None exact_column
       "book.xlsx" "a.cpp"
     = ([], ["Error parsing Excel file: Exceeds the limit (4300 digits) for integer string conversion: value has 4301 digits; use sys.set_int_max_str_digits() to increase the limit"]).
Proof. repeat split; by vm_compute. Qed.

(** The sample sheet asked for a file it does not list, and a path that
    cannot be read. *)
Example other_file_no_findings :
  extract_violations_for_file read_one_finding None exact_column
    "book.xlsx" "b.cpp" = ([], []).
Proof. by vm_compute. Qed.

Example unreadable_no_findings :
  extract_violations_for_file read_nothing None exact_column "book.xlsx" "a.cpp"
  = ([], ["Error parsing Excel file: [Errno 2] No such file or directory: 'book.xlsx'"]).
Proof. by vm_compute. Qed.

(** C9.  The call always returns a list: the list of the [try] body
    when it returns, and the empty list with one notice on the error
    channel when anything in it raises; when no row of the sheet is of
    the target file the list is empty. *)
Theorem violations_never_raise
    (read_excel : string -> result dataframe) (assign_without_rows : option exn)
    (line_column : list (option N) -> result (list (result (option N))))
    (excel_path target_file : string) :
  (forall e,
     try_body read_excel assign_without_rows line_column excel_path target_file
     = inl e ->
     extract_violations_for_file read_excel assign_without_rows line_column
       excel_path target_file
     = ([], ["Error parsing Excel file: " +:+ str_of_exn e]))
  /\ (forall violations,
        try_body read_excel assign_without_rows line_column excel_path
          target_file
        = inr violations ->
        extract_violations_for_file read_excel assign_without_rows line_column
          excel_path target_file
        = (violations, []))
  /\ ((forall df, read_excel excel_path = inr df ->
        Forall (fun row => at_label "File" row <> CStr target_file) (rows df)) ->
      (extract_violations_for_file read_excel assign_without_rows line_column
         excel_path target_file).1 = []).
Proof.
  unfold extract_violations_for_file. repeat split.
  - by intros e ->.
  - by intros vs ->.
  - intros Hrows. unfold try_body.
    destruct (read_excel excel_path) as [e|df]; [done|].
    specialize (Hrows df eq_refl). cbn [bind].
    destruct (column df "Line and Warning") as [e|texts]; [done|]. cbn [bind].
    destruct (traverse parse_line_warning texts) as [e|parsed]; [done|].
    cbn [bind].
    destruct (match rows df with
              | [] => match assign_without_rows with
                      | Some e => raise e
                      | None => ret ()
                      end
              | _ :: _ => ret ()
              end) as [e|[]]; [done|]. cbn [bind].
    destruct (line_column (fst <$> parsed)) as [e|lines]; [done|]. cbn [bind].
    destruct (column df "File") as [e|files]; [done|]. cbn [bind].
    by rewrite filter_zip_none.
Qed.

End ExcelFacts.

(** * Further properties of the code *)

(** ** The matcher: what a success tells, and when it cannot succeed *)

Section ReMoreFacts.
Context {R : Type}.
Implicit Types (s t xs : string) (p : ascii -> bool) (c : ascii).
Implicit Types (k : @Re.cont R) (caps : list string) (pos : nat).

(** A greedy repetition that succeeds has consumed a run of its class and
    handed the rest over. *)
Lemma star_greedy_sound p s : forall pos caps k r,
  Re.star_greedy p pos s caps k = Some r ->
  exists xs s', s = xs +:+ s' /\ Str.all p xs = true /\
                k (pos + String.length xs) s' caps = Some r.
Proof.
  induction s as [|c s IH]; intros pos caps k r H; cbn in H.
  - exists EmptyString, EmptyString. by rewrite Nat.add_0_r.
  - destruct (p c) eqn:Hc.
    + destruct (Re.star_greedy p (S pos) s caps k) as [r'|] eqn:Hrec.
      * injection H as <-. apply IH in Hrec as (xs & s' & -> & Hxs & Hk).
        exists (String c xs), s'. cbn. rewrite Hc, Hxs.
        by replace (pos + S (String.length xs)) with (S pos + String.length xs) by lia.
      * exists EmptyString, (String c s). by rewrite Nat.add_0_r.
    + exists EmptyString, (String c s). by rewrite Nat.add_0_r.
Qed.

(** Before a continuation that cannot fail, the run it has consumed is
    the longest one. *)
Lemma star_greedy_sound_longest p s : forall pos caps k r,
  (forall pos' s' caps', k pos' s' caps' <> None) ->
  Re.star_greedy p pos s caps k = Some r ->
  exists xs s', s = xs +:+ s' /\ Str.all p xs = true /\
                Str.starts p s' = false /\
                k (pos + String.length xs) s' caps = Some r.
Proof.
  induction s as [|c s IH]; intros pos caps k r Hk H; cbn in H.
  - exists EmptyString, EmptyString. by rewrite Nat.add_0_r.
  - destruct (p c) eqn:Hc.
    + destruct (Re.star_greedy p (S pos) s caps k) as [r'|] eqn:Hrec.
      * injection H as <-.
        apply IH in Hrec as (xs & s' & -> & Hxs & Hs' & Hr); [|done].
        exists (String c xs), s'. cbn. rewrite Hc, Hxs.
        by replace (pos + S (String.length xs)) with (S pos + String.length xs) by lia.
      * exfalso. clear H IH. revert pos Hrec.
        induction s as [|d s IHs]; intros pos Hrec; cbn in Hrec.
        -- by apply Hk in Hrec.
        -- destruct (p d).
           ++ destruct (Re.star_greedy p (S (S pos)) s caps k) eqn:Hrec'.
              ** done.
              ** by apply (IHs (S pos)).
           ++ by apply Hk in Hrec.
    + exists EmptyString, (String c s). cbn. rewrite Hc.
      by rewrite Nat.add_0_r.
Qed.

Lemma dead_suffix k a b : Re.dead k (a +:+ b) -> Re.dead k b.
Proof.
  intros H a' b' pos caps ->. apply (H (a +:+ a') b').
  by rewrite app_assoc_str.
Qed.

Lemma dead_here k s pos caps : Re.dead k s -> k pos s caps = None.
Proof. intros H. by apply (H EmptyString s). Qed.

Lemma dead_tail k c s : Re.dead k (String c s) -> Re.dead k s.
Proof. apply (dead_suffix k (String c EmptyString) s). Qed.

Lemma star_greedy_dead p s : forall pos caps k,
  Re.dead k s -> Re.star_greedy p pos s caps k = None.
Proof.
  induction s as [|c s IH]; intros pos caps k H; cbn.
  - by apply dead_here.
  - rewrite IH by by eapply dead_tail.
    rewrite (dead_here _ _ _ _ H). by destruct (p c).
Qed.

Lemma star_lazy_dead p s : forall pos caps k,
  Re.dead k s -> Re.star_lazy p pos s caps k = None.
Proof.
  induction s as [|c s IH]; intros pos caps k H; cbn;
    rewrite (dead_here _ _ _ _ H); [done|].
  rewrite IH by by eapply dead_tail. by destruct (p c).
Qed.

(** Whatever the pattern, it cannot succeed in front of a continuation
    that fails on every end piece of the subject. *)
Lemma exec_dead r : forall pos s caps k,
  Re.dead k s -> Re.exec r pos s caps k = None.
Proof.
  induction r as [|p|r1 IH1 r2 IH2|r1 IH1 r2 IH2|p|p|r IH| |];
    intros pos s caps k H; cbn.
  - by apply dead_here.
  - destruct s as [|c s]; [done|]. destruct (p c); [|done].
    apply dead_here. by eapply dead_tail.
  - apply IH1. intros a b pos' caps' ->. apply IH2. by eapply dead_suffix.
  - by rewrite IH1, IH2.
  - by apply star_greedy_dead.
  - by apply star_lazy_dead.
  - apply IH. intros a b pos' caps' ->. by apply (H a b).
  - destruct pos; [by apply dead_here|done].
  - destruct (Re.at_eol s); [by apply dead_here|done].
Qed.

End ReMoreFacts.

(** ** The snippet extractor: which lines conform, and what is stored *)

Section ConformFacts.
Import Snippets.

(** A success of the line pattern splits the line into a label, a colon
    and a rest without line feed, at most a final line feed left over. *)
Lemma match_at_line_re_sound line caps left_over :
  Re.match_at line_re 0 line = Some (caps, left_over) ->
  exists ds ls rest,
    line = ds +:+ ls +:+ String Chr.colon (rest +:+ left_over) /\
    ds <> EmptyString /\
    Str.all Chr.isdigit ds = true /\
    Str.all Chr.isalpha ls = true /\
    Str.all Chr.notnewline rest = true /\
    Re.at_eol left_over = true /\
    caps = [ds +:+ ls; rest].
Proof.
  unfold Re.match_at, line_re. cbn [Re.exec Re.Plus Re.Lit].
  destruct line as [|d s1]; [done|].
  destruct (Chr.isdigit d) eqn:Hd; [|done]. intros H.
  apply star_greedy_sound in H as (xs & s2 & -> & Hxs & H).
  apply star_greedy_sound in H as (ys & s3 & -> & Hys & H).
  destruct s3 as [|c s4]; [done|].
  destruct (Chr.eq_char ":" c) eqn:Hc; [|done].
  apply star_greedy_sound in H as (zs & s5 & -> & Hzs & H).
  destruct (Re.at_eol s5) eqn:He; [|done].
  injection H as <- <-.
  unfold Chr.eq_char in Hc. apply Ascii.eqb_eq in Hc as ->.
  exists (String d xs), ys, zs. repeat split; try done.
  - cbn. by rewrite Hd.
  - cbn [app]. f_equal; [f_equal|].
    + apply take_eq with (t := String Chr.colon (zs +:+ s5)).
      * cbn. by rewrite app_assoc_str.
      * cbn [String.length]. rewrite !length_app_str. cbn [String.length].
        rewrite !length_app_str. lia.
    + f_equal. apply take_eq with (t := s5); [done|].
      rewrite !length_app_str. lia.
Qed.

Lemma at_eol_notnewline s t :
  Str.all Chr.notnewline (s +:+ t) = true -> Re.at_eol t = true ->
  t = EmptyString.
Proof.
  rewrite all_app. intros [_ Ht]%andb_prop He.
  destruct t as [|c [|c' t]]; [done| |done].
  cbn in *. unfold Chr.notnewline in Ht. by rewrite He in Ht.
Qed.

Lemma entry_of_sound line label code :
  Str.all Chr.notnewline line = true ->
  entry_of line = Some (label, code) ->
  exists rest,
    line = label +:+ String Chr.colon rest /\ is_label label /\
    code = Str.rstrip rest.
Proof.
  intros Hline. unfold entry_of, Re.re_match.
  destruct (Re.match_at line_re 0 line) as [[caps left_over]|] eqn:Hm; [|done].
  apply match_at_line_re_sound in Hm
    as (ds & ls & rest & -> & Hne & Hds & Hls & Hrest & He & ->).
  assert (Hl : is_label (ds +:+ ls)) by by exists ds, ls.
  cbn [fmap option_fmap option_map fst Re.group nth pred].
  rewrite (strip_label _ Hl). intros [= <- <-].
  assert (left_over = EmptyString) as ->.
  { rewrite <- app_assoc_str in Hline.
    change (String Chr.colon (rest +:+ left_over))
      with (String Chr.colon rest +:+ left_over) in Hline.
    rewrite <- app_assoc_str in Hline. by eapply at_eol_notnewline. }
  exists rest. by rewrite app_empty_r, app_assoc_str.
Qed.

(** X1.  A line without line feed conforms exactly when it is a label, a
    colon and a rest; the entry is then the label with the rest, trailing
    white space removed.  Every other line is skipped. *)
Theorem conforming_lines (line label code : string) :
  Str.all Chr.notnewline line = true ->
  entry_of line = Some (label, code)
  <-> exists rest,
        line = label +:+ String Chr.colon rest /\ is_label label /\
        code = Str.rstrip rest.
Proof.
  intros Hline. split; [by apply entry_of_sound|].
  intros (rest & -> & Hl & ->). apply entry_of_conforming; [done|].
  rewrite all_app in Hline. apply andb_prop in Hline as [_ Hline].
  by cbn in Hline.
Qed.

Lemma conforming_lines_witness :
  Str.all Chr.notnewline "12a:  x = 1;  " = true /\
  (entry_of "12a:  x = 1;  " = Some ("12a", "  x = 1;")
   <-> exists rest,
         "12a:  x = 1;  " = "12a" +:+ String Chr.colon rest /\ is_label "12a" /\
         "  x = 1;" = Str.rstrip rest).
Proof.
  assert (H : Str.all Chr.notnewline "12a:  x = 1;  " = true) by reflexivity.
  exact (conj H (conforming_lines "12a:  x = 1;  " "12a" "  x = 1;" H)).
Defined.

Lemma ends_rstrip s : Str.ends Chr.isspace (Str.rstrip s) = false.
Proof.
  induction s as [|c s IH]; [done|]. cbn [Str.rstrip].
  destruct (Chr.isspace c) eqn:Hc; cbn [andb].
  - destruct (Str.rstrip s) as [|c' r] eqn:Hr; [done|].
    cbn [Str.is_empty]. by rewrite ends_cons.
  - destruct (Str.rstrip s) as [|c' r] eqn:Hr; [by cbn|].
    by rewrite ends_cons.
Qed.

Lemma free_rstrip p s :
  Str.free p s = true -> Str.free p (Str.rstrip s) = true.
Proof.
  induction s as [|c s IH]; [done|]. rewrite free_cons.
  intros [Hc Hs]%andb_prop. cbn [Str.rstrip].
  destruct (Chr.isspace c && Str.is_empty (Str.rstrip s)); [done|].
  by rewrite free_cons, Hc, IH.
Qed.

(** X2.  Every key of the returned dictionary is a label, and every value is
    the text behind the colon of an examined line of that label, without
    white space at its end and without line boundary. *)
Theorem stored_entries_are_clean (response_text label code : string) :
  extract_snippets_from_response response_text !! label = Some code ->
  is_label label /\
  Str.ends Chr.isspace code = false /\
  Str.free Chr.islinebreak code = true /\
  exists rest,
    label +:+ String Chr.colon rest ∈ examined_lines response_text /\
    code = Str.rstrip rest.
Proof.
  unfold extract_snippets_from_response.
  rewrite run_examined, all_lines_foldl. intros H.
  apply insert_all_origin in H as [H|H]; [done|].
  apply list_elem_of_omap in H as (line & Hin & He).
  pose proof (examined_lines_free response_text) as Hfree.
  rewrite Forall_forall in Hfree. specialize (Hfree _ Hin).
  apply entry_of_sound in He as (rest & -> & Hl & ->);
    [|by apply linebreak_free_notnewline].
  split; [done|]. split; [apply ends_rstrip|]. split; [|by exists rest].
  apply free_rstrip. rewrite free_app in Hfree.
  apply andb_prop in Hfree as [_ Hfree]. rewrite free_cons in Hfree.
  by apply andb_prop in Hfree as [_ Hfree].
Qed.

Lemma stored_entries_are_clean_witness :
  extract_snippets_from_response two_blocks !! "7" = Some " new();" /\
  (is_label "7" /\
   Str.ends Chr.isspace " new();" = false /\
   Str.free Chr.islinebreak " new();" = true /\
   exists rest,
     "7" +:+ String Chr.colon rest ∈ examined_lines two_blocks /\
     " new();" = Str.rstrip rest).
Proof.
  assert (H : extract_snippets_from_response two_blocks !! "7" = Some " new();")
    by (vm_compute; reflexivity).
  exact (conj H (stored_entries_are_clean two_blocks "7" " new();" H)).
Defined.

Lemma dom_insert_all es : forall m : gmap string string,
  dom (insert_all m es) = dom m ∪ list_to_set es.*1.
Proof.
  induction es as [|[l c] es IH]; intros m; cbn.
  - by rewrite union_empty_r_L.
  - unfold insert_all in IH. rewrite IH. cbn. rewrite dom_insert_L.
    rewrite (comm_L (∪) {[l]} (dom m)). by rewrite (assoc_L (∪)).
Qed.

Lemma length_filter_omap {A B : Type} (f : A -> option B) (l : list A) :
  length (filter (fun x => f x = None) l) + length (omap f l) = length l.
Proof.
  induction l as [|x l IH]; [done|].
  rewrite filter_cons, omap_cons_list.
  destruct (f x) eqn:Hx.
  - rewrite decide_False by done. cbn. lia.
  - rewrite decide_True by done. cbn. lia.
Qed.

(** X3.  Every examined line is either reported or stored: the notices
    and the conforming lines together are as many as the examined
    lines; and the keys of the dictionary are the labels of the lines
    that conform. *)
Theorem lines_reported_or_stored (response_text : string) :
  length (extract_stderr response_text) + length (entries response_text)
  = length (examined_lines response_text)
  /\ dom (extract_snippets_from_response response_text)
     = list_to_set (entries response_text).*1.
Proof.
  unfold extract_stderr, extract_snippets_from_response, entries.
  rewrite run_examined, stderr_foldl, all_lines_foldl.
  cbn [stderr initial all_lines app]. rewrite length_fmap.
  split; [apply length_filter_omap|].
  by rewrite dom_insert_all, dom_empty_L, union_empty_l_L.
Qed.

End ConformFacts.

(** ** Fences that do not pair up *)

Section LonelyFences.
Import Snippets.

(** Where no three backticks follow, the closing fence cannot match. *)
Lemma close_dead {R : Type} (k : @Re.cont R) rest :
  Str.contains "```" rest = false ->
  Re.dead (fun pos s caps => Re.exec (Re.Lit "```") pos s caps k) rest.
Proof.
  intros H a b pos caps ->. apply exec_Lit_fail.
  by apply contains_startswith, (contains_suffix _ a).
Qed.

(** An opening fence without a closing one behind it matches nothing. *)
Lemma match_at_unclosed pos rest :
  Str.contains "```" rest = false ->
  Re.match_at fence_re pos ("```" +:+ rest) = None.
Proof.
  intros H. unfold Re.match_at, fence_re.
  change (Re.exec (Re.Seq ?r1 ?r2) ?p ?s ?cs ?k)
    with (Re.exec r1 p s cs (fun pos' s' caps' => Re.exec r2 pos' s' caps' k)).
  rewrite exec_Lit.
  match goal with
  | |- Re.exec (Re.Seq ?a (Re.Seq ?b (Re.Seq ?c (Re.Seq ?d ?e)))) ?p ?s ?cs ?k = _ =>
      change (Re.exec (Re.Seq a (Re.Seq b (Re.Seq c d))) p s cs
                (fun pos' s' caps' => Re.exec e pos' s' caps' k) = None)
  end.
  apply exec_dead. by apply close_dead.
Qed.

Lemma app_eq_suffix c : forall a b d,
  a +:+ b = c +:+ d -> String.length c <= String.length a ->
  exists e, d = e +:+ b.
Proof.
  induction c as [|x c IH]; intros a b d H Hlen.
  - by exists a.
  - destruct a as [|y a]; [cbn in Hlen; lia|].
    cbn in H. injection H as -> H. apply (IH a b d H). cbn in Hlen. lia.
Qed.

Lemma startswith_split l : forall s,
  Str.startswith l s = true -> exists b, s = l +:+ b.
Proof.
  induction l as [|a l IH]; intros s H; [by exists s|].
  destruct s as [|c s]; [done|]. cbn in H.
  apply andb_prop in H as [->%Ascii.eqb_eq H].
  destruct (IH s H) as [b ->]. by exists b.
Qed.

(** Where no fence marker has another one behind it, there is no block. *)
Lemma scan_lonely s : forall pos,
  (forall a b, s = a +:+ "```" +:+ b -> Str.contains "```" b = false) ->
  Re.scan fence_re pos s 0 = [].
Proof.
  assert (Hm : forall s pos,
    (forall a b, s = a +:+ "```" +:+ b -> Str.contains "```" b = false) ->
    Re.match_at fence_re pos s = None).
  { clear s. intros s pos H. destruct (Str.startswith "```" s) eqn:Hs.
    - apply startswith_split in Hs as [b ->].
      apply match_at_unclosed, (H EmptyString b eq_refl).
    - by apply match_at_fence_none. }
  induction s as [|c s IH]; intros pos H; cbn [Re.scan].
  - by rewrite Hm.
  - rewrite Hm by done. apply IH. intros a b ->.
    by apply (H (String c a) b).
Qed.

Lemma lonely_marker rest a b :
  Str.contains "```" rest = false ->
  "```" +:+ rest = a +:+ "```" +:+ b ->
  Str.contains "```" b = false.
Proof.
  intros H Heq. rewrite <- app_assoc_str in Heq. symmetry in Heq.
  apply app_eq_suffix in Heq as [e ->].
  - by eapply contains_suffix.
  - rewrite length_app_str. cbn. lia.
Qed.

(** X4.  A response with one fence marker only, as an opening fence that is
    never closed, has no block: nothing is stored and nothing reported. *)
Theorem unterminated_fence (pre rest : string) :
  Str.contains "```" pre = false ->
  Str.contains "```" rest = false ->
  code_blocks (pre +:+ "```" +:+ rest) = [] /\
  run (pre +:+ "```" +:+ rest) = initial.
Proof.
  intros Hpre Hrest.
  assert (H : code_blocks (pre +:+ "```" +:+ rest) = []).
  { unfold code_blocks, Re.findall. rewrite scan_before_fence by done.
    rewrite scan_lonely; [done|]. intros a b. by apply lonely_marker. }
  split; [done|]. unfold run. by rewrite H.
Qed.

Lemma unterminated_fence_witness :
  Str.contains "```" (Str.join_lines ["Fix:"; EmptyString]) = false /\
  Str.contains "```" (Str.join_lines ["cpp"; "1: int x;"; "2: `y`"]) = false /\
  code_blocks (Str.join_lines ["Fix:"; EmptyString] +:+ "```"
               +:+ Str.join_lines ["cpp"; "1: int x;"; "2: `y`"]) = [] /\
  run (Str.join_lines ["Fix:"; EmptyString] +:+ "```"
       +:+ Str.join_lines ["cpp"; "1: int x;"; "2: `y`"]) = initial.
Proof.
  assert (H1 : Str.contains "```" (Str.join_lines ["Fix:"; EmptyString]) = false)
    by reflexivity.
  assert (H2 : Str.contains "```"
                 (Str.join_lines ["cpp"; "1: int x;"; "2: `y`"]) = false)
    by reflexivity.
  exact (conj H1 (conj H2 (unterminated_fence _ _ H1 H2))).
Defined.

(** *** Blocks in another language *)

Lemma not_space_not_LF c : Chr.isspace c = false -> Ascii.eqb Chr.LF c = false.
Proof. destruct c as [[] [] [] [] [] [] [] []]; cbn; done. Qed.

(** Behind the tag the pattern wants white space up to a line feed: in
    front of any other character it fails. *)
Lemma after_tag_blocked {R : Type} r pos s caps (k : @Re.cont R) :
  Str.starts Chr.isspace s = false ->
  Re.exec (Re.Seq (Re.Star Chr.isspace) (Re.Seq (Re.Chr (Chr.eq_char Chr.LF)) r))
    pos s caps k = None.
Proof.
  intros Hs. cbn [Re.exec]. rewrite star_greedy_stop by done.
  destruct s as [|c s]; [done|]. cbn in Hs. unfold Chr.eq_char.
  by rewrite space_LF.
Qed.

Lemma exec_Lit_foreign {R : Type} (k : @Re.cont R) l : forall tag pos rest caps,
  (forall pos' s caps', Str.starts Chr.isspace s = false -> k pos' s caps' = None) ->
  Str.free Chr.isspace l = true ->
  Str.free Chr.isspace tag = true ->
  tag <> l ->
  Re.exec (Re.Lit l) pos (tag +:+ String Chr.LF rest) caps k = None.
Proof.
  induction l as [|a l IH]; intros tag pos rest caps Hk Hl Htag Hne.
  - cbn [Re.Lit Re.exec]. apply Hk.
    destruct tag as [|c tag]; [done|]. cbn in *.
    apply andb_prop in Htag as [Hc _]. by apply negb_true_iff.
  - rewrite free_cons in Hl. apply andb_prop in Hl as [Ha Hl].
    apply negb_true_iff in Ha. cbn [Re.Lit Re.exec].
    destruct tag as [|c tag]; cbn [String.append].
    + unfold Chr.eq_char. by rewrite not_space_not_LF.
    + unfold Chr.eq_char. destruct (Ascii.eqb_spec c a) as [->|Hc]; [|done].
      rewrite free_cons in Htag. apply andb_prop in Htag as [_ Htag].
      apply IH; [done..|]. by intros ->.
Qed.

(** An opening fence with such a tag matches nothing. *)
Lemma match_at_foreign pos tag rest :
  foreign_tag tag = true ->
  Re.match_at fence_re pos ("```" +:+ tag +:+ String Chr.LF rest) = None.
Proof.
  unfold foreign_tag.
  intros [[[[Hne Hsp]%andb_prop _]%andb_prop Hcpp]%andb_prop Hcxx]%andb_prop.
  apply negb_true_iff in Hcpp, Hcxx. apply String.eqb_neq in Hcpp, Hcxx.
  unfold Re.match_at, fence_re.
  change (Re.exec (Re.Seq ?r1 ?r2) ?p ?s ?cs ?k)
    with (Re.exec r1 p s cs (fun pos' s' caps' => Re.exec r2 pos' s' caps' k)).
  rewrite exec_Lit.
  match goal with
  | |- Re.exec (Re.Seq ?a ?b) ?p ?s ?cs ?k = _ =>
      change (Re.exec a p s cs (fun pos' s' caps' => Re.exec b pos' s' caps' k)
              = None);
      set (K := fun pos' s' caps' => Re.exec b pos' s' caps' k)
  end.
  assert (HK : forall pos' s caps',
             Str.starts Chr.isspace s = false -> K pos' s caps' = None).
  { intros pos' s caps' Hs. by apply after_tag_blocked. }
  cbn [Re.Opt Re.exec].
  rewrite !exec_Lit_foreign by done.
  apply HK. destruct tag as [|c tag]; [done|]. cbn in *.
  apply andb_prop in Hsp as [Hc _]. by apply negb_true_iff.
Qed.

Lemma scan_inside body : forall pos s,
  no_fence_inside body = true ->
  Re.scan fence_re pos (body +:+ s) 0
  = Re.scan fence_re (pos + String.length body) s 0.
Proof.
  induction body as [|c body IH]; intros pos s H.
  - cbn. by rewrite Nat.add_0_r.
  - pose proof (startswith_fence_inside (String c body) s H) as Hs.
    apply (no_fence_inside_suffix (String c EmptyString)) in H.
    cbn [String.append] in *. cbn [Re.scan].
    rewrite match_at_fence_none by by apply Hs.
    rewrite IH by done. cbn [String.length]. f_equal. lia.
Qed.

Lemma free_no_fence u :
  Str.free (Chr.eq_char Chr.backtick) u = true -> no_fence_inside u = true.
Proof.
  intros H. unfold no_fence_inside. apply andb_true_intro. split.
  - apply negb_true_iff. induction u as [|c u IH]; [done|].
    rewrite free_cons in H. apply andb_prop in H as [Hc Hu].
    cbn [Str.contains]. rewrite IH by done.
    unfold Chr.eq_char, Chr.backtick in Hc. apply negb_true_iff in Hc.
    cbn. by rewrite Hc.
  - apply negb_true_iff. induction u as [|c u IH]; [done|].
    rewrite free_cons in H. apply andb_prop in H as [Hc Hu].
    destruct u as [|c' u]; [by apply negb_true_iff in Hc|].
    rewrite ends_cons by done. by apply IH.
Qed.

(** A fence marker that opens nothing, in front of a character other
    than a backtick, is passed over. *)
Lemma scan_skip_marker pos t :
  Re.match_at fence_re pos ("```" +:+ t) = None ->
  Str.starts (Chr.eq_char Chr.backtick) t = false ->
  Re.scan fence_re pos ("```" +:+ t) 0 = Re.scan fence_re (S (S (S pos))) t 0.
Proof.
  intros Hm Ht. cbn [String.append] in *. cbn [Re.scan]. rewrite Hm.
  assert (H2 : forall p, Re.match_at fence_re p (String "`" (String "`" t)) = None).
  { intros p. apply match_at_fence_none. destruct t as [|c t]; [done|].
    cbn in *. unfold Chr.eq_char, Chr.backtick in Ht. by rewrite Ht. }
  assert (H1 : forall p, Re.match_at fence_re p (String "`" t) = None).
  { intros p. apply match_at_fence_none. destruct t as [|c t]; [done|].
    cbn in *. unfold Chr.eq_char, Chr.backtick in Ht. by rewrite Ht. }
  by rewrite H2, H1.
Qed.

(** The scan walks over a block in another language up to its closing
    fence. *)
Lemma scan_foreign_block pos tag body s :
  foreign_tag tag = true ->
  no_fence_inside body = true ->
  Re.scan fence_re pos ("```" +:+ tag +:+ String Chr.LF (body +:+ s)) 0
  = Re.scan fence_re 0 s 0.
Proof.
  intros Htag Hbody.
  pose proof (match_at_foreign pos tag (body +:+ s) Htag) as Hm.
  unfold foreign_tag in Htag.
  apply andb_prop in Htag as [[[[Hne Hsp]%andb_prop Hbt]%andb_prop _]%andb_prop _].
  rewrite scan_skip_marker; [|done|].
  2:{ destruct tag as [|c tag]; [done|]. cbn in *.
      apply andb_prop in Hbt as [Hc _]. by apply negb_true_iff. }
  replace (tag +:+ String Chr.LF (body +:+ s))
    with ((tag +:+ String Chr.LF EmptyString) +:+ body +:+ s)
    by by rewrite app_assoc_str.
  rewrite scan_inside.
  2:{ apply free_no_fence. by rewrite free_app, Hbt. }
  rewrite scan_inside by done.
  by apply scan_pos.
Qed.

(** The scan on a fenced block of the accepted kind. *)
Lemma scan_fenced pos tag body post :
  is_tag tag ->
  no_fence_inside body = true ->
  Re.scan fence_re pos (fenced tag body +:+ post) 0
  = [captured body] :: Re.scan fence_re 0 post 0.
Proof.
  intros Htag Hbody.
  pose proof (match_at_fenced pos tag body post Htag Hbody) as Hm.
  set (m := "``" +:+ tag +:+ String Chr.LF (body +:+ "```")).
  assert (Hshape : fenced tag body +:+ post = String Chr.backtick (m +:+ post)).
  { unfold fenced, m. rewrite !app_assoc_str. cbn [String.append].
    by rewrite !app_assoc_str. }
  clearbody m. rewrite Hshape in *.
  rewrite (scan_match _ _ _ _ _ _ Hm). f_equal.
  replace (String.length (String Chr.backtick (m +:+ post)) - String.length post - 1)
    with (String.length m).
  2:{ cbn [String.length]. rewrite length_app_str. lia. }
  rewrite scan_skip. by apply scan_pos.
Qed.

(** X5.  A fenced block in another language, with no fence marker behind it,
    is not extracted. *)
Theorem foreign_block_is_not_extracted (pre tag body rest : string) :
  Str.contains "```" pre = false ->
  foreign_tag tag = true ->
  no_fence_inside body = true ->
  Str.contains "```" rest = false ->
  code_blocks (pre +:+ fenced tag body +:+ rest) = [] /\
  run (pre +:+ fenced tag body +:+ rest) = initial.
Proof.
  intros Hpre Htag Hbody Hrest.
  assert (H : code_blocks (pre +:+ fenced tag body +:+ rest) = []).
  { unfold code_blocks, Re.findall. rewrite fenced_app.
    rewrite scan_before_fence by done.
    rewrite scan_foreign_block by done.
    rewrite scan_lonely; [done|]. intros a b. by apply lonely_marker. }
  split; [done|]. unfold run. by rewrite H.
Qed.

Lemma foreign_block_is_not_extracted_witness :
  Str.contains "```" "Before " = false /\
  foreign_tag "C++" = true /\
  no_fence_inside (Str.join_lines ["1: int x;"; EmptyString]) = true /\
  Str.contains "```" " after" = false /\
  code_blocks ("Before " +:+ fenced "C++" (Str.join_lines ["1: int x;"; EmptyString])
               +:+ " after") = [] /\
  run ("Before " +:+ fenced "C++" (Str.join_lines ["1: int x;"; EmptyString])
       +:+ " after") = initial.
Proof.
  assert (H1 : Str.contains "```" "Before " = false) by reflexivity.
  assert (H2 : foreign_tag "C++" = true) by reflexivity.
  assert (H3 : no_fence_inside (Str.join_lines ["1: int x;"; EmptyString]) = true)
    by reflexivity.
  assert (H4 : Str.contains "```" " after" = false) by reflexivity.
  exact (conj H1 (conj H2 (conj H3 (conj H4
           (foreign_block_is_not_extracted _ _ _ _ H1 H2 H3 H4))))).
Defined.

(** X6.  Behind a fenced block in another language the fences pair up the
    other way round: the closing fence of that block opens a block, the
    text up to the next fence marker is its body, and the scan goes on
    behind that marker. *)
Theorem foreign_block_flips_fences (pre tag body between post : string) :
  Str.contains "```" pre = false ->
  foreign_tag tag = true ->
  no_fence_inside body = true ->
  no_fence_inside between = true ->
  code_blocks (pre +:+ "```" +:+ tag +:+ String Chr.LF
                 (body +:+ fenced EmptyString between +:+ post))
  = captured between :: code_blocks post /\
  run (pre +:+ "```" +:+ tag +:+ String Chr.LF
         (body +:+ fenced EmptyString between +:+ post))
  = foldl do_block (do_block initial between) (code_blocks post).
Proof.
  intros Hpre Htag Hbody Hbetween.
  assert (H : code_blocks (pre +:+ "```" +:+ tag +:+ String Chr.LF
                             (body +:+ fenced EmptyString between +:+ post))
              = captured between :: code_blocks post).
  { unfold code_blocks, Re.findall.
    rewrite scan_before_fence by done.
    rewrite scan_foreign_block by done.
    rewrite scan_fenced; [done|by left|done]. }
  split; [done|]. unfold run. rewrite H. cbn [foldl].
  unfold do_block at 2 3. by rewrite block_lines_captured.
Qed.

Lemma foreign_block_flips_fences_witness :
  Str.contains "```" "Before " = false /\
  foreign_tag "python" = true /\
  no_fence_inside (Str.join_lines ["print(1)"; EmptyString]) = true /\
  no_fence_inside (Str.join_lines ["1: text"; EmptyString]) = true /\
  code_blocks ("Before " +:+ "```" +:+ "python" +:+ String Chr.LF
                 (Str.join_lines ["print(1)"; EmptyString]
                  +:+ fenced EmptyString (Str.join_lines ["1: text"; EmptyString])
                  +:+ Str.join_lines ["cpp"; "2: code"; "```"]))
  = captured (Str.join_lines ["1: text"; EmptyString])
    :: code_blocks (Str.join_lines ["cpp"; "2: code"; "```"]) /\
  run ("Before " +:+ "```" +:+ "python" +:+ String Chr.LF
         (Str.join_lines ["print(1)"; EmptyString]
          +:+ fenced EmptyString (Str.join_lines ["1: text"; EmptyString])
          +:+ Str.join_lines ["cpp"; "2: code"; "```"]))
  = foldl do_block
      (do_block initial (Str.join_lines ["1: text"; EmptyString]))
      (code_blocks (Str.join_lines ["cpp"; "2: code"; "```"])).
Proof.
  assert (H1 : Str.contains "```" "Before " = false) by reflexivity.
  assert (H2 : foreign_tag "python" = true) by reflexivity.
  assert (H3 : no_fence_inside (Str.join_lines ["print(1)"; EmptyString]) = true)
    by reflexivity.
  assert (H4 : no_fence_inside (Str.join_lines ["1: text"; EmptyString]) = true)
    by reflexivity.
  exact (conj H1 (conj H2 (conj H3 (conj H4
           (foreign_block_flips_fences _ _ _ _
              (Str.join_lines ["cpp"; "2: code"; "```"]) H1 H2 H3 H4))))).
Defined.

End LonelyFences.

(** ** The stripper, line by line *)

Section StripperFacts.
Import Snippets Files Numbering Denumbering.
Implicit Types (s t l line rest : string).

(** The prefix pattern on a label, a colon and a rest: all of the label
    and the colon are consumed, and one white-space character if the
    rest starts with one. *)
Lemma match_at_prefix_label ds ls rest :
  ds <> EmptyString ->
  Str.all Chr.isdigit ds = true ->
  Str.all Chr.isalpha ls = true ->
  Re.match_at prefix_re 0 (ds +:+ ls +:+ String Chr.colon rest)
  = Some ([], drop_space rest).
Proof.
  intros Hne Hds Hls. destruct ds as [|d ds]; [done|].
  cbn in Hds. apply andb_prop in Hds as [Hd Hds].
  unfold Re.match_at, prefix_re.
  cbn [Re.exec Re.Plus Re.Lit Re.Opt String.append]. rewrite Hd.
  eapply star_greedy_max; [done|by apply starts_digit_after_label|].
  eapply star_greedy_max; [done|done|].
  cbn. destruct rest as [|c rest]; [done|]. cbn. by destruct (Chr.isspace c).
Qed.

(** A success of the prefix pattern has consumed a label and a colon,
    and at most one character more. *)
Lemma match_at_prefix_sound line caps left_over :
  Re.match_at prefix_re 0 line = Some (caps, left_over) ->
  exists ds ls rest,
    line = ds +:+ ls +:+ String Chr.colon rest /\
    ds <> EmptyString /\
    Str.all Chr.isdigit ds = true /\
    Str.all Chr.isalpha ls = true.
Proof.
  unfold Re.match_at, prefix_re. cbn [Re.exec Re.Plus Re.Lit Re.Opt].
  destruct line as [|d s1]; [done|].
  destruct (Chr.isdigit d) eqn:Hd; [|done]. intros H.
  apply star_greedy_sound in H as (xs & s2 & -> & Hxs & H).
  apply star_greedy_sound in H as (ys & s3 & -> & Hys & H).
  destruct s3 as [|c s4]; [done|].
  destruct (Chr.eq_char ":" c) eqn:Hc; [|done].
  unfold Chr.eq_char in Hc. apply Ascii.eqb_eq in Hc as ->.
  exists (String d xs), ys, s4. repeat split; try done.
  cbn. by rewrite Hd.
Qed.

Lemma drop_space_suffix rest :
  exists sp, rest = sp +:+ drop_space rest /\ String.length sp <= 1.
Proof.
  destruct rest as [|c rest]; [exists EmptyString; split; [done|cbn; lia]|].
  cbn. destruct (Chr.isspace c).
  - exists (String c EmptyString). split; [done|cbn; lia].
  - exists EmptyString. split; [done|cbn; lia].
Qed.

Lemma new_line_matched d m left_over caps :
  Re.match_at prefix_re 0 (String d (m +:+ left_over)) = Some (caps, left_over) ->
  new_line (String d (m +:+ left_over)) = left_over.
Proof.
  intros Hm. unfold new_line, Re.sub.
  rewrite (sub_scan_match _ _ _ _ _ _ _ (String.length m) Hm).
  - cbn [String.append]. by rewrite sub_scan_skip, sub_scan_later.
  - cbn [String.length]. rewrite length_app_str. lia.
Qed.

Lemma new_line_unmatched line :
  Re.match_at prefix_re 0 line = None -> new_line line = line.
Proof.
  intros Hm. unfold new_line, Re.sub.
  destruct line as [|c s]; cbn [Re.sub_scan]; rewrite Hm; [done|].
  by rewrite sub_scan_later.
Qed.

Lemma new_line_label ds ls rest :
  ds <> EmptyString ->
  Str.all Chr.isdigit ds = true ->
  Str.all Chr.isalpha ls = true ->
  new_line (ds +:+ ls +:+ String Chr.colon rest) = drop_space rest.
Proof.
  intros Hne Hds Hls.
  pose proof (match_at_prefix_label ds ls rest Hne Hds Hls) as Hm.
  destruct (drop_space_suffix rest) as (sp & Hsp & _).
  destruct ds as [|d ds]; [done|].
  set (left_over := drop_space rest) in *.
  assert (Hshape : String d ds +:+ ls +:+ String Chr.colon rest
                   = String d ((ds +:+ ls +:+ String Chr.colon sp) +:+ left_over)).
  { rewrite Hsp at 1. cbn [String.append]. by rewrite !app_assoc_str. }
  rewrite Hshape in Hm |- *. by eapply new_line_matched.
Qed.

(** X7.  From a line that starts with a label and a colon the stripper
    removes the label, the colon and one white-space character if one
    follows, whatever it is; the rest is written as it is. *)
Theorem stripper_removes_prefix (label rest : string) :
  is_label label ->
  new_line (label +:+ String Chr.colon rest) = drop_space rest.
Proof.
  intros (ds & ls & -> & Hne & Hds & Hls).
  rewrite app_assoc_str. by apply new_line_label.
Qed.

Lemma stripper_removes_prefix_witness :
  is_label "12a" /\
  new_line ("12a" +:+ String Chr.colon (String "009" "x = 1;"))
  = drop_space (String "009" "x = 1;").
Proof.
  assert (Hl : is_label "12a").
  { exists "12", "a". repeat split; [discriminate]. }
  exact (conj Hl (stripper_removes_prefix "12a" (String "009" "x = 1;") Hl)).
Defined.

(** X8.  A line that does not start with a label and a colon is written
    unchanged. *)
Theorem stripper_keeps_other_lines (line : string) :
  (forall label rest,
     is_label label -> line <> label +:+ String Chr.colon rest) ->
  new_line line = line.
Proof.
  intros H. apply new_line_unmatched.
  destruct (Re.match_at prefix_re 0 line) as [[caps left_over]|] eqn:Hm; [|done].
  apply match_at_prefix_sound in Hm as (ds & ls & rest & -> & Hne & Hds & Hls).
  exfalso. apply (H (ds +:+ ls) rest); [by exists ds, ls|].
  by rewrite app_assoc_str.
Qed.

Lemma stripper_keeps_other_lines_witness :
  (forall label rest,
     is_label label -> "  12: x" <> label +:+ String Chr.colon rest) /\
  new_line "  12: x" = "  12: x".
Proof.
  assert (H : forall label rest,
            is_label label -> "  12: x" <> label +:+ String Chr.colon rest).
  { intros label rest (ds & ls & -> & Hne & Hds & _) Heq.
    destruct ds as [|d ds]; [done|]. cbn in Heq, Hds.
    injection Heq as <- _. discriminate. }
  exact (conj H (stripper_keeps_other_lines "  12: x" H)).
Defined.

(** What the stripper writes for a line is an end piece of the line. *)
Lemma new_line_suffix line : exists pre, line = pre +:+ new_line line.
Proof.
  destruct (Re.match_at prefix_re 0 line) as [[caps left_over]|] eqn:Hm.
  - apply match_at_prefix_sound in Hm as (ds & ls & rest & -> & Hne & Hds & Hls).
    rewrite new_line_label by done.
    destruct (drop_space_suffix rest) as (sp & Hsp & _).
    exists (ds +:+ ls +:+ String Chr.colon sp).
    rewrite Hsp at 1. by rewrite !app_assoc_str.
  - exists EmptyString. by rewrite new_line_unmatched.
Qed.

Lemma full_line_suffix a : forall b,
  full_line (a +:+ b) = true -> b <> EmptyString -> full_line b = true.
Proof.
  induction a as [|c a IH]; intros b H Hb; [done|].
  cbn [String.append full_line] in H.
  destruct (Ascii.eqb c Chr.LF); [|by apply IH].
  destruct a; [by destruct b|done].
Qed.

Lemma part_line_suffix a b :
  part_line (a +:+ b) = true -> b <> EmptyString -> part_line b = true.
Proof.
  unfold part_line. intros [_ H]%andb_prop Hb.
  rewrite free_app in H. apply andb_prop in H as [_ ->].
  by destruct b.
Qed.

Lemma well_split_new_line (ls : list string) :
  well_split ls = true ->
  Forall (fun l => new_line l <> EmptyString) ls ->
  well_split (new_line <$> ls) = true.
Proof.
  induction ls as [|l ls IH]; [done|].
  cbn [well_split fmap list_fmap]. intros H Hall.
  apply Forall_cons in Hall as [Hl Hall].
  destruct (new_line_suffix l) as [pre Hpre].
  apply orb_prop in H as [[H1 H2]%andb_prop|[H1 H2]%andb_prop].
  - apply orb_true_intro. left. rewrite IH by done.
    rewrite Hpre in H1. by rewrite (full_line_suffix pre).
  - destruct ls; [|done]. apply orb_true_intro. right.
    rewrite Hpre in H1. by rewrite (part_line_suffix pre).
Qed.

Lemma no_CR_new_line (ls : list string) :
  forallb (Str.free (Chr.eq_char Chr.CR)) ls = true ->
  forallb (Str.free (Chr.eq_char Chr.CR)) (new_line <$> ls) = true.
Proof.
  induction ls as [|l ls IH]; [done|]. cbn [forallb fmap list_fmap].
  intros [Hl Hls]%andb_prop. rewrite IH by done.
  destruct (new_line_suffix l) as [pre Hpre]. rewrite Hpre in Hl.
  rewrite free_app in Hl. apply andb_prop in Hl as [_ ->]. done.
Qed.

(** X9.  As long as no line is emptied, the stripper writes line for line:
    the output has the lines of the input, each without its prefix, so
    as many lines in the same order. *)
Theorem stripper_keeps_line_count (disk : fs) (a b F : string) :
  disk !! a = Some F ->
  a <> b ->
  Forall (fun l => new_line l <> EmptyString) (lines_of F) ->
  exists (disk' : fs) (out : string),
    remove_line_numbers disk a b = Some disk' /\
    disk' !! b = Some out /\
    lines_of out = new_line <$> lines_of F /\
    line_count out = line_count F.
Proof.
  intros Ha Hab Hall. eexists _, _.
  split; [by apply remove_line_numbers_ok|].
  split; [apply lookup_insert_eq|].
  assert (H : lines_of (denumbered (lines_of F)) = new_line <$> lines_of F).
  { unfold lines_of at 1, denumbered. rewrite universal_newlines_id.
    - apply split_keepends_concat, well_split_new_line; [|done].
      apply well_split_split_keepends.
    - rewrite free_concat. apply no_CR_new_line, lines_of_no_CR. }
  split; [done|]. unfold line_count. by rewrite H, length_fmap.
Qed.

Lemma stripper_keeps_line_count_witness :
  ({[ "in.txt" := "1: a" ]} : fs) !! "in.txt" = Some "1: a" /\
  "in.txt" <> "out.txt" /\
  Forall (fun l => new_line l <> EmptyString) (lines_of "1: a") /\
  exists (disk' : fs) (out : string),
    remove_line_numbers {[ "in.txt" := "1: a" ]} "in.txt" "out.txt" = Some disk' /\
    disk' !! "out.txt" = Some out /\
    lines_of out = new_line <$> lines_of "1: a" /\
    line_count out = line_count "1: a".
Proof.
  assert (H1 : ({[ "in.txt" := "1: a" ]} : fs) !! "in.txt" = Some "1: a")
    by reflexivity.
  assert (H2 : "in.txt" <> "out.txt") by discriminate.
  assert (H3 : Forall (fun l => new_line l <> EmptyString) (lines_of "1: a")).
  { repeat constructor. discriminate. }
  exact (conj H1 (conj H2 (conj H3
           (stripper_keeps_line_count _ _ _ _ H1 H2 H3)))).
Defined.

(** X10.  Stripping a numbered file gives back the text that was numbered,
    its line ends read as line feeds. *)
Theorem strip_undoes_add (disk : fs) (a b c F : string) :
  disk !! a = Some F ->
  a <> b -> b <> c ->
  exists disk1 disk2 : fs,
    add_line_numbers disk a b = Some disk1 /\
    remove_line_numbers disk1 b c = Some disk2 /\
    disk2 !! c = Some (universal_newlines F).
Proof.
  intros Ha Hab Hbc. eexists _, _.
  split; [by apply add_line_numbers_ok|].
  split; [apply remove_line_numbers_ok; [apply lookup_insert_eq|done]|].
  by rewrite lookup_insert_eq, denumbered_after_numbered.
Qed.

Lemma strip_undoes_add_witness :
  ({[ "in.txt" := "x" ]} : fs) !! "in.txt" = Some "x" /\
  "in.txt" <> "num.txt" /\ "num.txt" <> "plain.txt" /\
  exists disk1 disk2 : fs,
    add_line_numbers {[ "in.txt" := "x" ]} "in.txt" "num.txt" = Some disk1 /\
    remove_line_numbers disk1 "num.txt" "plain.txt" = Some disk2 /\
    disk2 !! "plain.txt" = Some (universal_newlines "x").
Proof.
  assert (H0 : ({[ "in.txt" := "x" ]} : fs) !! "in.txt" = Some "x")
    by reflexivity.
  assert (H1 : "in.txt" <> "num.txt") by discriminate.
  assert (H2 : "num.txt" <> "plain.txt") by discriminate.
  exact (conj H0 (conj H1 (conj H2 (strip_undoes_add _ _ _ _ _ H0 H1 H2)))).
Defined.

Lemma enumerate_lookup {A : Type} (xs : list A) : forall start k,
  enumerate xs start !! k = (fun x => ((start + N.of_nat k)%N, x)) <$> xs !! k.
Proof.
  induction xs as [|x xs IH]; intros start k; [done|].
  destruct k as [|k]; cbn.
  - by rewrite N.add_0_r.
  - rewrite IH. destruct (xs !! k); [|done]. cbn. do 2 f_equal. lia.
Qed.

(** X11.  The adder writes line for line: the output has as many lines as the
    input, and its line number k is the decimal numeral of k, a colon, a
    blank and line number k of the input, counting from 1. *)
Theorem adder_numbers_every_line (disk : fs) (a b F : string) :
  disk !! a = Some F ->
  a <> b ->
  exists (disk' : fs) (out : string),
    add_line_numbers disk a b = Some disk' /\
    disk' !! b = Some out /\
    line_count out = line_count F /\
    forall (k : nat) (line : string),
      lines_of F !! k = Some line ->
      lines_of out !! k
      = Some (str_of_int (N.of_nat (S k)) +:+ ": " +:+ line).
Proof.
  intros Ha Hab. eexists _, _.
  split; [by apply add_line_numbers_ok|].
  split; [apply lookup_insert_eq|].
  rewrite lines_of_numbered. unfold line_count. rewrite lines_of_numbered.
  split.
  - rewrite length_fmap. generalize 1%N.
    induction (lines_of F) as [|l ls IH]; intros start; [done|].
    cbn. by rewrite IH.
  - intros k line Hk. rewrite list_lookup_fmap, enumerate_lookup, Hk.
    cbn. unfold number_line. cbn [fst snd]. do 3 f_equal. lia.
Qed.

Lemma adder_numbers_every_line_witness :
  ({[ "in.txt" := "x" ]} : fs) !! "in.txt" = Some "x" /\
  "in.txt" <> "num.txt" /\
  exists (disk' : fs) (out : string),
    add_line_numbers {[ "in.txt" := "x" ]} "in.txt" "num.txt" = Some disk' /\
    disk' !! "num.txt" = Some out /\
    line_count out = line_count "x" /\
    forall (k : nat) (line : string),
      lines_of "x" !! k = Some line ->
      lines_of out !! k
      = Some (str_of_int (N.of_nat (S k)) +:+ ": " +:+ line).
Proof.
  assert (H0 : ({[ "in.txt" := "x" ]} : fs) !! "in.txt" = Some "x")
    by reflexivity.
  assert (H1 : "in.txt" <> "num.txt") by discriminate.
  exact (conj H0 (conj H1 (adder_numbers_every_line _ _ _ _ H0 H1))).
Defined.

(** X12.  Given the same path for input and output, either tool leaves the
    file empty: the output is opened, and so truncated, before the first
    line is read. *)
Theorem same_path_empties_the_file (disk : fs) (a F : string) :
  disk !! a = Some F ->
  add_line_numbers disk a a = Some (<[a := EmptyString]> disk) /\
  remove_line_numbers disk a a = Some (<[a := EmptyString]> disk).
Proof.
  intros Ha. unfold add_line_numbers, remove_line_numbers. rewrite Ha. cbn.
  rewrite lookup_insert_eq. cbn. by rewrite insert_insert_eq.
Qed.

Lemma same_path_empties_the_file_witness :
  ({[ "f.txt" := "x" ]} : fs) !! "f.txt" = Some "x" /\
  add_line_numbers {[ "f.txt" := "x" ]} "f.txt" "f.txt"
  = Some (<["f.txt" := EmptyString]> ({[ "f.txt" := "x" ]} : fs)) /\
  remove_line_numbers {[ "f.txt" := "x" ]} "f.txt" "f.txt"
  = Some (<["f.txt" := EmptyString]> ({[ "f.txt" := "x" ]} : fs)).
Proof.
  assert (H0 : ({[ "f.txt" := "x" ]} : fs) !! "f.txt" = Some "x")
    by reflexivity.
  exact (conj H0 (same_path_empties_the_file _ _ _ H0)).
Defined.

End StripperFacts.

(** ** The violation extractor: what it returns *)

Section ExcelMoreFacts.
Import Excel.
Local Open Scope result_scope.

(** A literal that matches has been read off the subject. *)
Lemma exec_Lit_sound {R : Type} l : forall pos s caps (k : @Re.cont R) r,
  Re.exec (Re.Lit l) pos s caps k = Some r ->
  exists s', s = l +:+ s' /\ k (pos + String.length l) s' caps = Some r.
Proof.
  induction l as [|a l IH]; intros pos s caps k r H; cbn in H.
  - exists s. by rewrite Nat.add_0_r.
  - destruct s as [|c s]; [done|]. unfold Chr.eq_char in H.
    destruct (Ascii.eqb_spec c a) as [->|]; [|done].
    apply IH in H as (s' & -> & H). exists s'. split; [done|].
    by replace (pos + String.length (String a l))
         with (S pos + String.length l) by (cbn; lia).
Qed.

Lemma match_at_line_warning_sound s caps left_over :
  Re.match_at line_warning_re 0 s = Some (caps, left_over) ->
  exists ds ws msg,
    s = "[Line " +:+ ds +:+ "]" +:+ ws +:+ msg +:+ left_over /\
    ds <> EmptyString /\ Str.all Chr.isdigit ds = true /\
    Str.all Chr.isspace ws = true /\
    msg <> EmptyString /\ Str.all Chr.notnewline msg = true /\
    Str.starts Chr.notnewline left_over = false /\
    caps = [ds; msg].
Proof.
  unfold Re.match_at, line_warning_re.
  change (Re.exec (Re.Seq ?r1 ?r2) ?p ?s ?cs ?k)
    with (Re.exec r1 p s cs (fun pos' s' caps' => Re.exec r2 pos' s' caps' k)).
  intros H. apply exec_Lit_sound in H as (s1 & -> & H).
  cbn [Re.exec Re.Plus Re.Lit] in H.
  destruct s1 as [|d s1]; [done|].
  destruct (Chr.isdigit d) eqn:Hd; [|done].
  apply star_greedy_sound in H as (xs & s2 & -> & Hxs & H).
  destruct s2 as [|c s3]; [done|].
  destruct (Chr.eq_char "]" c) eqn:Hc; [|done].
  unfold Chr.eq_char in Hc. apply Ascii.eqb_eq in Hc as ->.
  apply star_greedy_sound in H as (ws & s4 & -> & Hws & H).
  destruct s4 as [|m s5]; [done|].
  destruct (Chr.notnewline m) eqn:Hm; [|done].
  apply star_greedy_sound_longest in H as (ys & s6 & -> & Hys & Hs6 & H);
    [|done].
  injection H as <- <-.
  exists (String d xs), ws, (String m ys). repeat split; try done.
  - cbn. by rewrite Hd.
  - cbn. by rewrite Hm.
  - cbn [app]. f_equal; [|f_equal].
    + apply take_eq with (t := String "]" (ws +:+ String m (ys +:+ s6)));
        [done|].
      cbn [String.length]. rewrite !length_app_str. cbn [String.length].
      rewrite !length_app_str. cbn [String.length]. rewrite !length_app_str. lia.
    + apply take_eq with (t := s6); [done|].
      cbn [String.length]. rewrite !length_app_str. lia.
Qed.

Lemma uint_of_string_digits s :
  Str.all Chr.isdigit s = true ->
  exists d, NilEmpty.uint_of_string s = Some d.
Proof.
  induction s as [|c s IH]; [by exists Decimal.Nil|].
  cbn [Str.all]. intros [Hc Hs]%andb_prop.
  destruct (IH Hs) as [d Hd]. cbn [NilEmpty.uint_of_string]. rewrite Hd.
  destruct c as [[] [] [] [] [] [] [] []]; try discriminate; cbn; by eexists.
Qed.

(** [int] of a numeral returns or raises by the number of its digits. *)
Lemma int_digits ds :
  ds <> EmptyString -> Str.all Chr.isdigit ds = true ->
  if (int_max_str_digits <? N.of_nat (String.length ds))%N
  then int ds = inl (TooManyDigits (N.of_nat (String.length ds)))
  else exists n, int ds = inr n.
Proof.
  intros Hne Hds. unfold int. destruct ds as [|d ds]; [done|].
  cbn [Str.is_empty].
  destruct (uint_of_string_digits _ Hds) as [u ->].
  destruct (int_max_str_digits <? _)%N; [done|by eexists].
Qed.

(** X14.  [parse_line_warning] raises for one kind of cell only: a text
    that starts with the bracketed numeral, white space and a message,
    where the numeral has more than 4300 digits; the exception is the
    [ValueError] of [int].  With at most 4300 digits it returns the
    numeral's value and the message, a non-empty text that runs up to
    the first line feed or the end of the cell.  For every other cell it
    returns no number and the cell itself. *)
Theorem parse_line_warning_outcomes (text : cell) :
  match parse_line_warning text with
  | inr (None, warning) =>
      warning = text /\
      Re.re_match line_warning_re (str_of_cell text) = None
  | inr (Some n, warning) =>
      exists ds ws msg tail,
        str_of_cell text = "[Line " +:+ ds +:+ "]" +:+ ws +:+ msg +:+ tail /\
        ds <> EmptyString /\ Str.all Chr.isdigit ds = true /\
        (N.of_nat (String.length ds) <= int_max_str_digits)%N /\
        int ds = inr n /\
        Str.all Chr.isspace ws = true /\
        msg <> EmptyString /\ Str.all Chr.notnewline msg = true /\
        Str.starts Chr.notnewline tail = false /\
        warning = CStr msg
  | inl e =>
      exists ds ws msg tail,
        str_of_cell text = "[Line " +:+ ds +:+ "]" +:+ ws +:+ msg +:+ tail /\
        Str.all Chr.isdigit ds = true /\
        (int_max_str_digits < N.of_nat (String.length ds))%N /\
        Str.all Chr.isspace ws = true /\
        msg <> EmptyString /\ Str.all Chr.notnewline msg = true /\
        Str.starts Chr.notnewline tail = false /\
        e = TooManyDigits (N.of_nat (String.length ds))
  end.
Proof.
  unfold parse_line_warning, Re.re_match.
  destruct (Re.match_at line_warning_re 0 (str_of_cell text))
    as [[caps left_over]|] eqn:Hm; [|by cbn].
  apply match_at_line_warning_sound in Hm
    as (ds & ws & msg & Hs & Hne & Hds & Hws & Hmne & Hmsg & Hleft & ->).
  cbn [fmap option_fmap option_map fst Re.group nth pred].
  pose proof (int_digits ds Hne Hds) as Hint.
  destruct (int_max_str_digits <? N.of_nat (String.length ds))%N eqn:Hlen.
  - rewrite Hint. cbn [bind]. apply N.ltb_lt in Hlen.
    by exists ds, ws, msg, left_over.
  - destruct Hint as [n Hn]. rewrite Hn. cbn [bind ret].
    apply N.ltb_ge in Hlen. by exists ds, ws, msg, left_over.
Qed.

(** X15.  On a sheet with the columns the code reads, whose cells all
    parse and whose column of numbers hands them back as parsed, the
    call returns one record for each row of the target file, in the
    order of the sheet, built from the cells of that row; and it reports
    nothing when the sheet has a row. *)
Theorem violations_are_the_matching_rows
    (read_excel : string -> result dataframe) (assign_without_rows : option exn)
    (line_column : list (option N) -> result (list (result (option N))))
    (excel_path target_file : string) (df : dataframe) :
  read_excel excel_path = inr df ->
  "File" ∈ columns df -> "Path" ∈ columns df ->
  "Line and Warning" ∈ columns df -> "Misra" ∈ columns df ->
  Forall (fun row =>
            returns (parse_line_warning (at_label "Line and Warning" row)))
    (rows df) ->
  line_column (parsed_lines df) = exact_column (parsed_lines df) ->
  (extract_violations_for_file read_excel assign_without_rows line_column
     excel_path target_file).1
  = violation_of df
      <$> filter (fun row => at_label "File" row = CStr target_file) (rows df)
  /\ (rows df <> [] ->
      (extract_violations_for_file read_excel assign_without_rows line_column
         excel_path target_file).2 = []).
Proof.
  intros Hread HF HP HL HM Hparse Hexact.
  destruct (decide (rows df = [])) as [Hnil|Hrows].
  - split; [|done]. rewrite Hnil. cbn [filter list_filter fmap list_fmap].
    unfold extract_violations_for_file, try_body. rewrite Hread.
    cbn [bind]. rewrite column_present by done. cbn [bind].
    rewrite traverse_parse by done. cbn [bind].
    rewrite fst_parsed, Hexact, Hnil. unfold parsed_lines. rewrite Hnil.
    destruct assign_without_rows; cbn; [done|].
    by rewrite column_present.
  - unfold extract_violations_for_file.
    by rewrite (try_body_exact _ _ _ _ _ df).
Qed.

Lemma violations_are_the_matching_rows_witness :
  read_one_finding "book.xlsx" = inr one_finding /\
  "File" ∈ columns one_finding /\ "Path" ∈ columns one_finding /\
  "Line and Warning" ∈ columns one_finding /\ "Misra" ∈ columns one_finding /\
  Forall (fun row =>
            returns (parse_line_warning (at_label "Line and Warning" row)))
    (rows one_finding) /\
  exact_column (parsed_lines one_finding)
  = exact_column (parsed_lines one_finding) /\
  (extract_violations_for_file read_one_finding None exact_column
     "book.xlsx" "a.cpp").1
  = violation_of one_finding
      <$> filter (fun row => at_label "File" row = CStr "a.cpp")
            (rows one_finding)
  /\ (rows one_finding <> [] ->
      (extract_violations_for_file read_one_finding None exact_column
         "book.xlsx" "a.cpp").2
      = []).
Proof.
  assert (H0 : read_one_finding "book.xlsx" = inr one_finding) by reflexivity.
  assert (H1 : "File" ∈ columns one_finding) by (repeat constructor).
  assert (H2 : "Path" ∈ columns one_finding) by (repeat constructor).
  assert (H3 : "Line and Warning" ∈ columns one_finding) by (repeat constructor).
  assert (H4 : "Misra" ∈ columns one_finding) by (repeat constructor).
  assert (H5 : Forall (fun row => returns (parse_line_warning
                                             (at_label "Line and Warning" row)))
                 (rows one_finding)).
  { repeat constructor.
    exists (Some 42%N, CStr "unused variable"). vm_compute. reflexivity. }
  assert (H6 : exact_column (parsed_lines one_finding)
               = exact_column (parsed_lines one_finding)) by reflexivity.
  exact (conj H0 (conj H1 (conj H2 (conj H3 (conj H4 (conj H5 (conj H6
           (violations_are_the_matching_rows read_one_finding None exact_column
              "book.xlsx" "a.cpp" one_finding H0 H1 H2 H3 H4 H5 H6)))))))).
Defined.

(** X16.  A sheet without the column [Line and Warning] gives no record
    and one notice that names the column, whatever its rows are.  So
    does a sheet with rows but without the column [File], once the
    cells of [Line and Warning] all parse and the column of numbers is
    built: the two new columns are assigned before [File] is read. *)
Theorem missing_column_is_reported
    (read_excel : string -> result dataframe) (assign_without_rows : option exn)
    (line_column : list (option N) -> result (list (result (option N))))
    (excel_path target_file : string) (df : dataframe) :
  read_excel excel_path = inr df ->
  ("Line and Warning" ∉ columns df)
  \/ (("File" ∉ columns df) /\ rows df <> []
      /\ Forall (fun row =>
                   returns (parse_line_warning
                              (at_label "Line and Warning" row))) (rows df)
      /\ returns (line_column (parsed_lines df))) ->
  extract_violations_for_file read_excel assign_without_rows line_column
    excel_path target_file
  = ([], ["Error parsing Excel file: '"
          +:+ (if decide ("Line and Warning" ∈ columns df) then "File"
               else "Line and Warning")
          +:+ "'"]).
Proof.
  intros Hread Hmiss. unfold extract_violations_for_file.
  destruct (decide ("Line and Warning" ∈ columns df)) as [HL|HL].
  - destruct Hmiss as [?|(HF & Hrows & Hparse & [lines Hlines])]; [done|].
    rewrite (try_body_filtered _ _ _ _ _ df lines) by done.
    by rewrite column_absent.
  - unfold try_body. rewrite Hread. cbn [bind]. by rewrite column_absent.
Qed.

Lemma missing_column_is_reported_witness :
  read_no_file_column "book.xlsx" = inr no_file_column /\
  (("Line and Warning" ∉ columns no_file_column)
   \/ (("File" ∉ columns no_file_column) /\ rows no_file_column <> []
       /\ Forall (fun row =>
                    returns (parse_line_warning
                               (at_label "Line and Warning" row)))
            (rows no_file_column)
       /\ returns (exact_column (parsed_lines no_file_column)))) /\
  extract_violations_for_file read_no_file_column None exact_column
    "book.xlsx" "a.cpp"
  = ([], ["Error parsing Excel file: '"
          +:+ (if decide ("Line and Warning" ∈ columns no_file_column)
               then "File" else "Line and Warning")
          +:+ "'"]).
Proof.
  assert (H0 : read_no_file_column "book.xlsx" = inr no_file_column)
    by reflexivity.
  assert (H1 : ("Line and Warning" ∉ columns no_file_column)
               \/ (("File" ∉ columns no_file_column)
                   /\ rows no_file_column <> []
                   /\ Forall (fun row =>
                                returns (parse_line_warning
                                           (at_label "Line and Warning" row)))
                        (rows no_file_column)
                   /\ returns (exact_column (parsed_lines no_file_column)))).
  { right. split; [|split; [done|split]].
    - intros H. cbn [columns no_file_column] in H.
      repeat (apply elem_of_cons in H as [H|H]; [discriminate H|]).
      by apply elem_of_nil in H.
    - repeat constructor.
      exists (Some 42%N, CStr "unused variable"). vm_compute. reflexivity.
    - by eexists. }
  exact (conj H0 (conj H1
           (missing_column_is_reported read_no_file_column None exact_column
              "book.xlsx" "a.cpp" no_file_column H0 H1))).
Defined.

(** X17.  On a sheet with rows that has [Line and Warning] and [File]
    but lacks [Path] or [Misra], whose cells all parse and whose column
    of numbers hands them back as parsed, the missing column is only
    noticed for a target file with a finding: without a matching row
    the call returns the empty list and reports nothing, with one it
    returns the empty list and a notice naming the first of the two
    that is missing. *)
Theorem missing_cell_needs_a_match
    (read_excel : string -> result dataframe) (assign_without_rows : option exn)
    (line_column : list (option N) -> result (list (result (option N))))
    (excel_path target_file : string) (df : dataframe) :
  read_excel excel_path = inr df ->
  "Line and Warning" ∈ columns df -> "File" ∈ columns df ->
  rows df <> [] ->
  Forall (fun row =>
            returns (parse_line_warning (at_label "Line and Warning" row)))
    (rows df) ->
  line_column (parsed_lines df) = exact_column (parsed_lines df) ->
  ("Path" ∉ columns df) \/ ("Misra" ∉ columns df) ->
  extract_violations_for_file read_excel assign_without_rows line_column
    excel_path target_file
  = match filter (fun row => at_label "File" row = CStr target_file) (rows df) with
    | [] => ([], [])
    | _ :: _ =>
        ([], ["Error parsing Excel file: '"
              +:+ (if decide ("Path" ∈ columns df) then "Misra" else "Path")
              +:+ "'"])
    end.
Proof.
  intros Hread HL HF Hrows Hparse Hexact Hmiss.
  unfold extract_violations_for_file.
  rewrite (try_body_filtered _ _ _ _ _ df (ret <$> parsed_lines df)) by done.
  rewrite column_present by done. cbn [bind].
  unfold parsed_lines. rewrite zip_exact.
  rewrite (filter_rows_pair target_file
             (fun row => (ret (parsed_cell (at_label "Line and Warning" row)).1,
                          (parsed_cell (at_label "Line and Warning" row)).2))).
  destruct (filter _ (rows df)) as [|m ms]; [done|].
  cbn [fmap list_fmap traverse bind record_of].
  rewrite row_get_present by done. cbn [bind].
  destruct (decide ("Path" ∈ columns df)) as [HP|HP].
  - destruct Hmiss as [?|HM]; [done|].
    rewrite row_get_present by done. cbn [bind ret].
    by rewrite row_get_absent.
  - by rewrite row_get_absent.
Qed.

Lemma missing_cell_needs_a_match_witness :
  read_no_path_column "book.xlsx" = inr no_path_column /\
  "Line and Warning" ∈ columns no_path_column /\
  "File" ∈ columns no_path_column /\
  rows no_path_column <> [] /\
  Forall (fun row =>
            returns (parse_line_warning (at_label "Line and Warning" row)))
    (rows no_path_column) /\
  exact_column (parsed_lines no_path_column)
  = exact_column (parsed_lines no_path_column) /\
  (("Path" ∉ columns no_path_column) \/ ("Misra" ∉ columns no_path_column)) /\
  extract_violations_for_file read_no_path_column None exact_column
    "book.xlsx" "a.cpp"
  = match filter (fun row => at_label "File" row = CStr "a.cpp")
            (rows no_path_column) with
    | [] => ([], [])
    | _ :: _ =>
        ([], ["Error parsing Excel file: '"
              +:+ (if decide ("Path" ∈ columns no_path_column) then "Misra"
                   else "Path")
              +:+ "'"])
    end.
Proof.
  assert (H0 : read_no_path_column "book.xlsx" = inr no_path_column)
    by reflexivity.
  assert (H1 : "Line and Warning" ∈ columns no_path_column)
    by (repeat constructor).
  assert (H2 : "File" ∈ columns no_path_column)
    by (repeat constructor).
  assert (H3 : rows no_path_column <> []) by done.
  assert (H4 : Forall (fun row => returns (parse_line_warning
                                             (at_label "Line and Warning" row)))
                 (rows no_path_column)).
  { repeat constructor.
    exists (Some 42%N, CStr "unused variable"). vm_compute. reflexivity. }
  assert (H5 : exact_column (parsed_lines no_path_column)
               = exact_column (parsed_lines no_path_column)) by reflexivity.
  assert (H6 : ("Path" ∉ columns no_path_column)
               \/ ("Misra" ∉ columns no_path_column)).
  { left. intros H. cbn [columns no_path_column] in H.
    repeat (apply elem_of_cons in H as [H|H]; [discriminate H|]).
    by apply elem_of_nil in H. }
  exact (conj H0 (conj H1 (conj H2 (conj H3 (conj H4 (conj H5 (conj H6
           (missing_cell_needs_a_match read_no_path_column None exact_column
              "book.xlsx" "a.cpp" no_path_column H0 H1 H2 H3 H4 H5 H6)))))))).
Defined.

End ExcelMoreFacts.
